(** * News agent: a shallow embedding of [final.py] and [agent.py]

    The development follows the two Python modules of the repository that
    carry the news pipeline:

    - [final.py]: [get_news_urls], [scrape_article], [summarize_news];
    - [agent.py]: the [MistralAgent] feed cache ([fetch_news]).

    Conventions of the embedding.

    - A Python [str] is a [string]; a character stands for a code point
      below 256, and [len] is [String.length].
    - Library calls whose result depends on the outside world
      ([requests.get], [BeautifulSoup], [feedparser.parse], [json.loads],
      the Mistral completion) are arguments of the embedded functions.  A
      call that raises is the [None] (or [Raises]) outcome.
    - A parsed document is a forest of [node]s; the [bs4] navigation
      methods the code uses ([find], [find_all], [get_text], [decompose])
      are functions on that forest. *)

From stdpp Require Import gmap strings list.
From Stdlib Require Import ZArith Ascii DecimalString.

Set Warnings "-register-all,-abstract-large-number".
Local Open Scope nat_scope.

(** ** Python string primitives *)

Module PyStr.

(** [str.isspace] on the code points below 256. *)
Definition is_space (c : ascii) : bool :=
  let n := nat_of_ascii c in
  ((9 <=? n) && (n <=? 13)) || ((28 <=? n) && (n <=? 32))
  || (n =? 133) || (n =? 160).

(** [str.lower] on the code points below 256. *)
Definition lower_char (c : ascii) : ascii :=
  let n := nat_of_ascii c in
  if ((65 <=? n) && (n <=? 90))
     || ((192 <=? n) && (n <=? 222) && negb (n =? 215))
  then ascii_of_nat (n + 32) else c.

Fixpoint lower (s : string) : string :=
  match s with
  | EmptyString => EmptyString
  | String c r => String (lower_char c) (lower r)
  end.

Definition is_empty (s : string) : bool :=
  match s with EmptyString => true | String _ _ => false end.

(** Truthiness of a [str]. *)
Definition truthy (s : string) : bool := negb (is_empty s).

Fixpoint lstrip (s : string) : string :=
  match s with
  | EmptyString => EmptyString
  | String c r => if is_space c then lstrip r else s
  end.

Fixpoint rstrip (s : string) : string :=
  match s with
  | EmptyString => EmptyString
  | String c r =>
      let r' := rstrip r in
      if is_space c && is_empty r' then EmptyString else String c r'
  end.

(** [s.strip()] *)
Definition strip (s : string) : string := rstrip (lstrip s).

(** [s.startswith(p)] *)
Definition startswith (p s : string) : bool := String.prefix p s.

(** [sub in s] *)
Fixpoint contains (sub s : string) : bool :=
  match s with
  | EmptyString => String.prefix sub EmptyString
  | String _ r => String.prefix sub s || contains sub r
  end.

(** [s[:n]] and [s[n:]] *)
Definition slice_to (n : nat) (s : string) : string := String.substring 0 n s.

Fixpoint slice_from (n : nat) (s : string) : string :=
  match n, s with
  | S k, String _ r => slice_from k r
  | _, _ => s
  end.

(** [s.endswith(".")], for a one-character suffix. *)
Fixpoint endswith_char (c : ascii) (s : string) : bool :=
  match s with
  | EmptyString => false
  | String d EmptyString => Ascii.eqb c d
  | String _ r => endswith_char c r
  end.

(** [sep.join(l)] *)
Fixpoint join (sep : string) (l : list string) : string :=
  match l with
  | [] => EmptyString
  | [x] => x
  | x :: r => x +:+ sep +:+ join sep r
  end.

(** [s.count(sub)] for a non-empty [sub]: occurrences are counted from
    the left and do not overlap.  [skip] is the number of characters of
    the last occurrence still to be passed over. *)
Fixpoint count_from (sub : string) (skip : nat) (s : string) : nat :=
  match s with
  | EmptyString => 0
  | String _ r =>
      match skip with
      | S k => count_from sub k r
      | O => if String.prefix sub s
             then S (count_from sub (String.length sub - 1) r)
             else count_from sub 0 r
      end
  end.

Definition count (sub s : string) : nat := count_from sub 0 s.

(** [s.split(sep)] for a non-empty [sep]; same scanning discipline as
    [count].  The head of the result is the piece under construction. *)
Fixpoint split_from (sep : string) (skip : nat) (s : string) : list string :=
  match s with
  | EmptyString => [EmptyString]
  | String c r =>
      match skip with
      | S k => split_from sep k r
      | O => if String.prefix sep s
             then EmptyString :: split_from sep (String.length sep - 1) r
             else match split_from sep 0 r with
                  | p :: ps => String c p :: ps
                  | [] => [String c EmptyString]
                  end
      end
  end.

Definition split (sep s : string) : list string := split_from sep 0 s.

(** [s.split()]: maximal runs of non-whitespace characters. *)
Definition push_word (w : string) (ws : list string) : list string :=
  if is_empty w then ws else w :: ws.

Fixpoint words_from (s : string) : string * list string :=
  match s with
  | EmptyString => (EmptyString, [])
  | String c r =>
      let '(w, ws) := words_from r in
      if is_space c then (EmptyString, push_word w ws) else (String c w, ws)
  end.

Definition split_ws (s : string) : list string :=
  let '(w, ws) := words_from s in push_word w ws.

(** [l[-1]] of a list known to be non-empty (the result of [split]). *)
Definition last_piece (l : list string) : string := List.last l EmptyString.

(** [l[0]] of a list known to be non-empty. *)
Definition first_piece (l : list string) : string := List.hd EmptyString l.

(** A string of [n] copies of one character. *)
Fixpoint repeat_char (c : ascii) (n : nat) : string :=
  match n with O => EmptyString | S k => String c (repeat_char c k) end.

Definition nl : string := String (ascii_of_nat 10) EmptyString.

End PyStr.

(** ** Parsed documents ([bs4]) *)

Module Dom.

(** [Text] is a string that [get_text] yields; [Elem] is a [Tag].  The
    parser gives every element at most one value per attribute name. *)
Inductive node :=
| Text (s : string)
| Elem (tag : string) (attrs : list (string * string)) (kids : list node).

(** A [BeautifulSoup] object: the top-level contents. *)
Definition document := list node.

(** [tag.get(name)] *)
Definition attr (name : string) (n : node) : option string :=
  match n with
  | Text _ => None
  | Elem _ attrs _ =>
      match List.find (fun kv => String.eqb (fst kv) name) attrs with
      | Some kv => Some (snd kv)
      | None => None
      end
  end.

(** [tag.get_text()], also [tag.text] *)
Fixpoint get_text (n : node) : string :=
  match n with
  | Text s => s
  | Elem _ _ kids => fold_right (fun k acc => get_text k +:+ acc) EmptyString kids
  end.

(** The elements of a subtree in document order, the root first. *)
Fixpoint elements (n : node) : list node :=
  match n with
  | Text _ => []
  | Elem _ _ kids => n :: flat_map elements kids
  end.

(** What [tag.find_all] searches: the elements below [n]. *)
Definition descendants (n : node) : list node :=
  match n with
  | Text _ => []
  | Elem _ _ kids => flat_map elements kids
  end.

(** What [soup.find_all] searches. *)
Definition doc_elements (d : document) : list node := flat_map elements d.

Definition find_all (p : node -> bool) (pool : list node) : list node :=
  List.filter p pool.

Definition find (p : node -> bool) (pool : list node) : option node :=
  List.find p pool.

Definition has_tag (t : string) (n : node) : bool :=
  match n with
  | Text _ => false
  | Elem t' _ _ => String.eqb t' t
  end.

Definition has_tag_in (ts : list string) (n : node) : bool :=
  existsb (fun t => has_tag t n) ts.

(** [attrs={name: value}] with a string value of a single-valued attribute. *)
Definition attr_is (name value : string) (n : node) : bool :=
  match attr name n with
  | Some v => String.eqb v value
  | None => false
  end.

(** [href=True] *)
Definition has_attr (name : string) (n : node) : bool :=
  match attr name n with Some _ => true | None => false end.

(** [class_="token"]: the class attribute is whitespace-separated and one
    of its tokens is the string. *)
Definition class_has_token (token : string) (n : node) : bool :=
  match attr "class" n with
  | Some v => existsb (String.eqb token) (PyStr.split_ws v)
  | None => false
  end.

(** [element.decompose()] for every element with a tag of [unwanted]. *)
Fixpoint prune (unwanted : list string) (n : node) : list node :=
  match n with
  | Text _ => [n]
  | Elem t a kids =>
      if existsb (String.eqb t) unwanted then []
      else [Elem t a (flat_map (prune unwanted) kids)]
  end.

Definition decompose_all (unwanted : list string) (d : document) : document :=
  flat_map (prune unwanted) d.

(** Text of each element of a list, stripped. *)
Definition stripped_texts (l : list node) : list string :=
  map (fun n => PyStr.strip (get_text n)) l.

End Dom.

(** ** JSON values ([json.loads]) and what a Python function may return *)

Inductive json :=
| JNull
| JBool (b : bool)
| JNum (z : Z)
| JStr (s : string)
| JArr (items : list json)
| JObj (fields : list (string * json)).

(** [scrape_article] returns a [str] on every path but one: slicing the
    JSON-LD field of an MSN page yields a list when the field is a list. *)
Inductive pyval :=
| PStr (s : string)
| PList (items : list json).

(** Outcome of a block that may return from the function, fall through to
    the next statement, or raise. *)
Inductive flow (A : Type) :=
| Return (v : A)
| Continue
| Raise.
Arguments Return {A} v.
Arguments Continue {A}.
Arguments Raise {A}.

(** A [requests] response. *)
Record response := { status_code : Z; text : string }.

(** ** [final.py]: article extraction *)

Module Scrape.
Import Dom.

(** The outside world of [scrape_article]: the HTTP fetch ([None] when
    [requests.get] raises), the HTML parser, the regular-expression
    search for the first JSON-LD script (its group 1) and [json.loads]
    ([None] when it raises [JSONDecodeError]). *)
Record web := {
  requests_get : string -> option response;
  html_parser : string -> document;
  re_search_json_ld : string -> option string;
  json_loads : string -> option json
}.

(** The paywall signal; it is logged and changes nothing. *)
Definition paywall_detected (body : string) : bool :=
  existsb (fun term => PyStr.contains term (PyStr.lower body))
    ["subscribe"; "subscription"; "paywall"; "premium"].

(** *** Special handling for MSN *)

(** [key in article_data] and [article_data[key]] on a decoded object. *)
Definition field (key : string) (fields : list (string * json)) : option json :=
  match List.find (fun kv => String.eqb (fst kv) key) fields with
  | Some kv => Some (snd kv)
  | None => None
  end.

(** [value[:5000]]: a slice of a string or of a list; any other JSON
    value raises. *)
Definition slice_5000 (value : json) : flow pyval :=
  match value with
  | JStr s => Return (PStr (PyStr.slice_to 5000 s))
  | JArr items => Return (PList (firstn 5000 items))
  | _ => Raise
  end.

Definition json_ld_stage (w : web) (body : string) : flow pyval :=
  match re_search_json_ld w body with
  | None => Continue
  | Some group1 =>
      match json_loads w (PyStr.strip group1) with
      | None => Continue
      | Some (JObj fields) =>
          match field "articleBody" fields with
          | Some v => slice_5000 v
          | None =>
              match field "description" fields with
              | Some v => slice_5000 v
              | None => Continue
              end
          end
      | Some _ => Continue
      end
  end.

Definition is_meta_description (n : node) : bool :=
  has_tag "meta" n && attr_is "name" "description" n.

Definition is_meta_og_description (n : node) : bool :=
  has_tag "meta" n && attr_is "property" "og:description" n.

Definition headline_stage (soup : document) : flow pyval :=
  match find (has_tag "h1") (doc_elements soup) with
  | None => Continue
  | Some headline =>
      let headline_text := PyStr.strip (get_text headline) in
      let from_container :=
        match find (fun n => has_tag "div" n && class_has_token "articlecontent" n)
                   (doc_elements soup) with
        | Some article_container =>
            let paragraphs := find_all (has_tag "p") (descendants article_container) in
            let article_text := PyStr.join " " (stripped_texts paragraphs) in
            if PyStr.truthy article_text
            then Some (headline_text +:+ ". " +:+ article_text)
            else None
        | None => None
        end in
      match from_container with
      | Some r => Return (PStr r)
      | None =>
          match find is_meta_description (doc_elements soup) with
          | Some meta_desc =>
              match attr "content" meta_desc with
              | Some c =>
                  if PyStr.truthy c
                  then Return (PStr (headline_text +:+ ". " +:+ c))
                  else Return (PStr headline_text)
              | None => Return (PStr headline_text)
              end
          | None => Return (PStr headline_text)
          end
      end
  end.

(** The [if 'msn.com' in url] block: [Raise] is caught by its own
    [except] and, like [Continue], leads to the generic path. *)
Definition msn_special (w : web) (url body : string) : flow pyval :=
  if PyStr.contains "msn.com" url then
    match json_ld_stage w body with
    | Return v => Return v
    | Raise => Raise
    | Continue => headline_stage (html_parser w body)
    end
  else Continue.

(** *** Generic extraction *)

Definition page_title (soup : document) : string :=
  match find (has_tag "title") (doc_elements soup) with
  | Some title_tag => PyStr.strip (get_text title_tag)
  | None => EmptyString
  end.

Definition page_meta_desc (soup : document) : string :=
  let meta_tag :=
    match find is_meta_description (doc_elements soup) with
    | Some m => Some m
    | None => find is_meta_og_description (doc_elements soup)
    end in
  match meta_tag with
  | Some m =>
      match attr "content" m with
      | Some c => if PyStr.truthy c then PyStr.strip c else EmptyString
      | None => EmptyString
      end
  | None => EmptyString
  end.

Definition unwanted : list string :=
  ["script"; "style"; "nav"; "footer"; "header"; "aside"; "iframe"; "noscript"].

(** [article and article.text.strip()]: a [Tag] is always true. *)
Definition usable (article : option node) : bool :=
  match article with
  | Some a => PyStr.truthy (PyStr.strip (get_text a))
  | None => false
  end.

(** [lambda x: x and hint in x.lower() if x else False] *)
Definition hinted (hint : string) (x : option string) : bool :=
  match x with
  | Some v => PyStr.truthy v && PyStr.contains hint (PyStr.lower v)
  | None => false
  end.

Definition find_testid (soup : document) : option node :=
  find (fun n => hinted "article" (attr "data-testid" n)) (doc_elements soup).

Definition find_tag (t : string) (soup : document) : option node :=
  find (has_tag t) (doc_elements soup).

Definition find_class (class_hint : string) (soup : document) : option node :=
  find (fun n => hinted class_hint (attr "class" n)) (doc_elements soup).

Definition class_hints : list string :=
  ["article"; "content"; "main"; "story"; "entry"; "post"; "text"; "body"].

(** The [for class_hint in ...] loop: [article] is reassigned at every
    round and the loop breaks at the first usable element. *)
Fixpoint class_loop (soup : document) (hints : list string)
    (article : option node) : option node :=
  match hints with
  | [] => article
  | class_hint :: rest =>
      let article := find_class class_hint soup in
      if usable article then article else class_loop soup rest article
  end.

Definition p_count (div : node) : nat :=
  length (find_all (has_tag "p") (descendants div)).

(** The loop over the divs: [(max_p_count, candidate)]. *)
Definition largest_div (soup : document) : nat * option node :=
  fold_left
    (fun '(max_p_count, candidate) div =>
       if max_p_count <? p_count div then (p_count div, Some div)
       else (max_p_count, candidate))
    (find_all (has_tag "div") (doc_elements soup))
    (0, None).

(** Methods 1 to 5: the value of [article] when the text is extracted. *)
Definition select_container (soup : document) : option node :=
  let article := find_testid soup in
  let article := if usable article then article else find_tag "article" soup in
  let article := if usable article then article
                 else class_loop soup class_hints article in
  let article := if usable article then article else find_tag "main" soup in
  if usable article then article
  else
    let '(max_p_count, candidate) := largest_div soup in
    if 3 <=? max_p_count then candidate else article.

Definition longer_than (n : nat) (s : string) : bool := n <? String.length s.

Definition container_text (soup : document) : string :=
  let article := select_container soup in
  match article with
  | Some a =>
      if usable article then
        let paragraphs := find_all (has_tag "p") (descendants a) in
        let content_paragraphs :=
          List.filter (longer_than 20) (stripped_texts paragraphs) in
        match content_paragraphs with
        | _ :: _ => PyStr.join " " content_paragraphs
        | [] => PyStr.strip (get_text a)
        end
      else EmptyString
  | None => EmptyString
  end.

(** [article_text] after the last-resort paragraphs and the whitespace
    clean-up. *)
Definition article_text (soup : document) : string :=
  let article_text := container_text soup in
  let article_text :=
    if PyStr.truthy article_text then article_text
    else
      let paragraphs := find_all (has_tag "p") (doc_elements soup) in
      PyStr.join " " (List.filter (longer_than 30) (stripped_texts paragraphs)) in
  PyStr.join " " (PyStr.split_ws article_text).

Definition placeholder (url : string) : string :=
  "Article from " +:+ url
  +:+ ". Unable to extract full content due to possible paywall or site restrictions.".

(** From [# Ensure we have some content] to the end of the [try]. *)
Definition finish (url title meta_desc article_text : string) : string :=
  let article_text :=
    if PyStr.is_empty article_text && (PyStr.truthy title || PyStr.truthy meta_desc)
    then title +:+ ". " +:+ meta_desc else article_text in
  if PyStr.truthy article_text then PyStr.slice_to 5000 article_text
  else placeholder url.

Definition generic (url : string) (parsed : document) : string :=
  let title := page_title parsed in
  let meta_desc := page_meta_desc parsed in
  let soup := decompose_all unwanted parsed in
  let article_text := article_text soup in
  if String.length article_text <? 100 then
    if PyStr.truthy title || PyStr.truthy meta_desc then
      if PyStr.truthy title && PyStr.truthy meta_desc
      then title +:+ ". " +:+ meta_desc
      else if PyStr.truthy title then title else meta_desc
    else
      let headings :=
        stripped_texts (find_all (has_tag_in ["h1"; "h2"; "h3"]) (doc_elements soup)) in
      match headings with
      | _ :: _ => PyStr.join " " headings
      | [] => finish url title meta_desc article_text
      end
  else finish url title meta_desc article_text.

(** The [except] handler. *)
Definition error_placeholder (url : string) : string :=
  let domain :=
    PyStr.first_piece (PyStr.split "/" (PyStr.last_piece (PyStr.split "//" url))) in
  "Article from " +:+ domain +:+ ". Unable to extract content.".

Definition scrape_article (w : web) (url : string) : pyval :=
  match requests_get w url with
  | None => PStr (error_placeholder url)
  | Some response =>
      if negb (status_code response =? 200)%Z then PStr EmptyString
      else
        match msn_special w url (text response) with
        | Return v => v
        | Continue | Raise =>
            PStr (generic url (html_parser w (text response)))
        end
  end.

(** The element whose text is extracted: [article] when the test at
    [# Extract text from the identified container] passes. *)
Definition chosen_container (soup : document) : option node :=
  let article := select_container soup in
  if usable article then article else None.

End Scrape.

(** *** The order of the structural candidates, as a list *)

Module ScrapeSpec.
Import Dom Scrape.

(** The first div among those that hold the greatest number of [p]
    elements, when that number is at least three. *)
Definition big_div (soup : document) : option node :=
  let divs := find_all (has_tag "div") (doc_elements soup) in
  let most := list_max (map p_count divs) in
  if 3 <=? most then List.find (fun div => p_count div =? most) divs else None.

Definition class_candidates (soup : document) : list (option node) :=
  map (fun class_hint => find_class class_hint soup) class_hints.

(** The candidates in the order in which [scrape_article] tries them. *)
Definition candidates (soup : document) : list (option node) :=
  [find_testid soup; find_tag "article" soup]
  ++ class_candidates soup
  ++ [find_tag "main" soup; big_div soup].

(** The candidates in the order the specification lists them:
    (a) the article element, (b) the test-id hint, (c) the class hints,
    (d) the main element, (e) the div with the most paragraphs. *)
Definition listed_candidates (soup : document) : list (option node) :=
  [find_tag "article" soup; find_testid soup]
  ++ class_candidates soup
  ++ [find_tag "main" soup; big_div soup].

(** The first candidate whose stripped text is not empty. *)
Definition first_usable (l : list (option node)) : option node :=
  match List.find usable l with
  | Some article => article
  | None => None
  end.

End ScrapeSpec.

(** ** [final.py]: URL discovery *)

Module Discover.
Import Dom.

(** Outcome of a [requests.get] followed by the parse of its body. *)
Inductive fetched :=
| Raises
| Got (status : Z) (soup : document).

(** The search surfaces, each as a function of the text put in its URL:
    the Google News search page, the Bing news search page, the Google
    News RSS search (parsed with the [xml] parser; [Raises] also stands
    for a parser that is not installed) and the Google web search. *)
Record web := {
  google_news : string -> fetched;
  bing_news : string -> fetched;
  google_rss : string -> fetched;
  google_search : string -> fetched
}.

(** [response.raise_for_status()] raises on a 4xx or 5xx status. *)
Definition raise_for_status (status : Z) : bool :=
  ((400 <=? status) && (status <? 600))%Z.

(** [a_tag.get('href', '')] for each [a] element that has an [href]. *)
Definition hrefs (soup : document) : list string :=
  map (fun a_tag => match attr "href" a_tag with Some h => h | None => EmptyString end)
    (find_all (fun n => has_tag "a" n && has_attr "href" n) (doc_elements soup)).

Definition is_http (s : string) : bool :=
  PyStr.startswith "http://" s || PyStr.startswith "https://" s.

Fixpoint google_links (hs : list string) : list string :=
  match hs with
  | [] => []
  | href :: rest =>
      if PyStr.startswith "./articles" href
      then ("https://news.google.com" +:+ PyStr.slice_from 1 href) :: google_links rest
      else google_links rest
  end.

(** The loop over the Bing anchors; it breaks once five links are held. *)
Fixpoint bing_loop (hs : list string) (article_links : list string) : list string :=
  match hs with
  | [] => article_links
  | href :: rest =>
      if is_http href && negb (PyStr.contains "bing" href)
         && negb (PyStr.contains "microsoft" href)
      then
        let article_links := article_links ++ [href] in
        if 5 <=? length article_links then article_links
        else bing_loop rest article_links
      else bing_loop rest article_links
  end.

(** [# Take the first 5 unique links] *)
Fixpoint unique_loop (links : list string) (seen : gset string)
    (unique_links : list string) : list string :=
  match links with
  | [] => unique_links
  | link :: rest =>
      if bool_decide (link ∈ seen) then unique_loop rest seen unique_links
      else
        let unique_links := unique_links ++ [link] in
        if 5 <=? length unique_links then unique_links
        else unique_loop rest ({[link]} ∪ seen) unique_links
  end.

Definition first_unique (article_links : list string) : list string :=
  unique_loop article_links ∅ [].

(** The outer [try] block; [None] when it raises. *)
Definition primary (w : web) (query : string) : option (list string) :=
  match google_news w query with
  | Raises => None
  | Got status soup =>
      if raise_for_status status then None
      else
        let article_links := google_links (hrefs soup) in
        if length article_links <? 3 then
          match bing_news w query with
          | Raises => None
          | Got _ fallback_soup =>
              Some (first_unique (bing_loop (hrefs fallback_soup) article_links))
          end
        else Some (first_unique article_links)
  end.

(** The loop over [items[:5]] of the RSS feed. *)
Fixpoint rss_links (items : list node) : list string :=
  match items with
  | [] => []
  | item :: rest =>
      match find (has_tag "link") (descendants item) with
      | Some l =>
          let link := PyStr.strip (get_text l) in
          if is_http link then link :: rss_links rest else rss_links rest
      | None => rss_links rest
      end
  end.

(** [s.strip(chars)] *)
Definition in_chars (chars : string) (c : ascii) : bool :=
  existsb (Ascii.eqb c) (String.list_ascii_of_string chars).

Fixpoint lstrip_chars (chars s : string) : string :=
  match s with
  | EmptyString => EmptyString
  | String c r => if in_chars chars c then lstrip_chars chars r else s
  end.

Fixpoint rstrip_chars (chars s : string) : string :=
  match s with
  | EmptyString => EmptyString
  | String c r =>
      let r' := rstrip_chars chars r in
      if in_chars chars c && PyStr.is_empty r' then EmptyString else String c r'
  end.

Definition strip_chars (chars s : string) : string :=
  rstrip_chars chars (lstrip_chars chars s).

(** The loop over the anchors of one web-search result page; the flag
    tells that the function returned from inside the loop. *)
Fixpoint collect_redirects (hs : list string) (backup_urls : list string)
    : list string * bool :=
  match hs with
  | [] => (backup_urls, false)
  | href :: rest =>
      if PyStr.startswith "/url?q=" href then
        let actual_url :=
          PyStr.first_piece
            (PyStr.split "&" (nth 1 (PyStr.split "/url?q=" href) EmptyString)) in
        if is_http actual_url && negb (PyStr.contains "google" actual_url) then
          let backup_urls := backup_urls ++ [actual_url] in
          if 5 <=? length backup_urls then (backup_urls, true)
          else collect_redirects rest backup_urls
        else collect_redirects rest backup_urls
      else collect_redirects rest backup_urls
  end.

(** The two nested loops over the suggested sources and their words. *)
Fixpoint search_words (w : web) (query : string) (words : list string)
    (backup_urls : list string) : list string * bool :=
  match words with
  | [] => (backup_urls, false)
  | word :: rest =>
      let clean_word := strip_chars ".,:**" (PyStr.lower word) in
      if (3 <? String.length clean_word)
         && negb (existsb (String.eqb clean_word) ["news"; "the"; "and"; "for"])
      then
        match google_search w (clean_word +:+ " " +:+ query +:+ " news") with
        | Raises => search_words w query rest backup_urls
        | Got _ search_soup =>
            let '(backup_urls, returned) :=
              collect_redirects (hrefs search_soup) backup_urls in
            if returned then (backup_urls, true)
            else search_words w query rest backup_urls
        end
      else search_words w query rest backup_urls
  end.

Definition sources_branch (w : web) (query : string) (sources : list string)
    (backup_urls : list string) : list string :=
  fst (search_words w query (flat_map PyStr.split_ws sources) backup_urls).

(** The [try] block of the handler.  [sources] is the value the name has
    when the function runs, [None] when the name is unbound: reading an
    unbound name raises [NameError]. *)
Definition rss_backup (sources : option (list string)) (w : web) (query : string)
    : flow (list string) :=
  match google_rss w query with
  | Raises => Raise
  | Got status rss_soup =>
      if raise_for_status status then Raise
      else
        let items := find_all (has_tag "item") (doc_elements rss_soup) in
        let backup_urls := rss_links (firstn 5 items) in
        match backup_urls with
        | _ :: _ => Return backup_urls
        | [] =>
            match sources with
            | None => Raise
            | Some sources => Return (sources_branch w query sources backup_urls)
            end
        end
  end.

Definition get_news_urls_in (sources : option (list string)) (w : web)
    (query : string) : list string :=
  match primary w query with
  | Some unique_links => unique_links
  | None =>
      match rss_backup sources w query with
      | Return urls => urls
      | Continue | Raise => []
      end
  end.

(** Name resolution in [get_news_urls].  The function never assigns
    [sources], so the name is looked up in the module; [final.py] binds
    only the names below at module level ([sources] is a local of
    [get_news_sources] and of [main]). *)
Definition module_level_names : list string :=
  ["os"; "logging"; "requests"; "load_dotenv"; "Mistral"; "BeautifulSoup";
   "ET"; "MISTRAL_API_KEY"; "logger"; "mistral"; "get_news_sources";
   "get_news_urls"; "scrape_article"; "summarize_news"; "main"].

Definition module_binds (name : string) : bool :=
  existsb (String.eqb name) module_level_names.

(** The value of the global [sources] when [get_news_urls] runs: unbound. *)
Definition global_sources : option (list string) := None.

Definition get_news_urls (w : web) (query : string) : list string :=
  get_news_urls_in global_sources w query.

End Discover.

(** ** [final.py]: summarization *)

Module Summarize.

(** The Mistral completion as a function of the prompt; [None] when the
    call raises or the response carries no text. *)
Definition completion := string -> option string.

Definition lines (l : list string) : string := PyStr.join PyStr.nl l.

Definition break : string := PyStr.nl +:+ PyStr.nl.

(** [l[a:b]] for indices within [0 .. len l] or beyond. *)
Definition slice {A : Type} (a b : nat) (l : list A) : list A :=
  firstn (b - a) (skipn a l).

(** [# Validate articles] *)
Definition valid_articles (articles : list string) : list string :=
  let valid_articles :=
    List.filter (fun article => 50 <? String.length (PyStr.strip article)) articles in
  match valid_articles with
  | [] => articles
  | _ :: _ => valid_articles
  end.

Definition separator : string :=
  PyStr.nl +:+ PyStr.nl +:+ "---ARTICLE---" +:+ PyStr.nl +:+ PyStr.nl.

Definition combined_text (valid_articles : list string) : string :=
  PyStr.join separator valid_articles.

Definition prompt (combined_text : string) : string :=
  lines [
    "You are a professional news analyst. The following are excerpts from news articles about the same topic.";
    "Please create a comprehensive summary that captures all key information from these articles.";
    "";
    "Requirements for the summary:";
    "1. Length: Between 250-500 words total";
    "2. Structure: Divide the summary into exactly 3 paragraphs";
    "   - First paragraph: Introduce the main news event and key facts";
    "   - Second paragraph: Provide context, background details, and supporting information";
    "   - Third paragraph: Include reactions, implications, or future perspectives";
    "3. Style: Factual, objective, and journalistic";
    "4. Content: Integrate all important details from the articles without redundancy";
    "";
    "Articles:";
    combined_text;
    "";
    "Begin your summary now:" ].

Definition alt_prompt (combined_text : string) : string :=
  lines [
    "You are a news writer tasked with creating a comprehensive summary based on limited information.";
    "Using only the facts available in these partial article fragments, write a detailed news summary.";
    "";
    "Requirements:";
    "1. Length: Between 250-500 words total";
    "2. Structure: Exactly 3 paragraphs with clear breaks between them";
    "3. Style: Factual and journalistic";
    "4. Content: Focus only on the information that is definitely available in the fragments";
    "";
    "Article fragments:";
    combined_text;
    "";
    "Write your 3-paragraph summary:" ].

Definition indicators : list string :=
  ["missing"; "no article"; "couldn't find"; "no content"; "please provide"].

Definition indicates_missing (summary : string) : bool :=
  existsb (fun indicator => PyStr.contains indicator (PyStr.lower summary)) indicators.

(** The completion call and its one retry with the alternate prompt:
    the value of [summary] before the paragraph check, [None] when a
    call raised. *)
Definition complete (mistral : completion) (combined_text : string) : option string :=
  match mistral (prompt combined_text) with
  | None => None
  | Some summary =>
      if indicates_missing summary then mistral (alt_prompt combined_text)
      else Some summary
  end.

(** [# Ensure the summary has proper paragraph breaks] *)
Definition ensure_paragraphs (summary : string) : string :=
  if PyStr.count break summary <? 2 then
    let sentences := PyStr.split ". " summary in
    if 6 <=? length sentences then
      let third := length sentences / 3 in
      let para1 := PyStr.join ". " (slice 0 third sentences) +:+ "." in
      let para2 := PyStr.join ". " (slice third (2 * third) sentences) +:+ "." in
      let para3 := PyStr.join ". " (skipn (2 * third) sentences) in
      let para3 := if PyStr.endswith_char "." para3 then para3 else para3 +:+ "." in
      para1 +:+ break +:+ para2 +:+ break +:+ para3
    else summary
  else summary.

(** [[s.strip() + '.' for s in article.split('.') if s.strip()]] *)
Definition article_sentences (article : string) : list string :=
  map (fun s => PyStr.strip s +:+ ".")
    (List.filter (fun s => PyStr.truthy (PyStr.strip s)) (PyStr.split "." article)).

Definition collected_sentences (valid_articles : list string) : list string :=
  flat_map (fun article => firstn 5 (article_sentences article)) valid_articles.

(** The summary built without the model, in the [except] handler. *)
Definition extractive (valid_articles : list string) : string :=
  let sentences := collected_sentences valid_articles in
  match sentences with
  | _ :: _ =>
      let third := Nat.max 1 (length sentences / 3) in
      let para1 := PyStr.join " " (slice 0 third sentences) in
      let para2 := PyStr.join " " (slice third (2 * third) sentences) in
      let para3 := PyStr.join " " (slice (2 * third) (3 * third) sentences) in
      para1 +:+ break +:+ para2 +:+ break +:+ para3
  | [] => "Insufficient content available to generate a summary."
  end.

Definition summarize_news (mistral : completion) (articles : list string) : string :=
  match articles with
  | [] => "No valid articles found to summarize."
  | _ :: _ =>
      let valid_articles := valid_articles articles in
      match complete mistral (combined_text valid_articles) with
      | Some summary => ensure_paragraphs summary
      | None => extractive valid_articles
      end
  end.

End Summarize.

(** ** [agent.py]: the feed cache of [MistralAgent] *)

Module Agent.

(** One item of a cached list. *)
Record article_ref := {
  title : string;
  link : string;
  published : string;
  source : string;
  summary : string
}.

(** What [feedparser] gives for an entry; a missing field is [None]. *)
Record raw_entry := {
  entry_title : option string;
  entry_link : option string;
  entry_published : option string;
  entry_summary : option string
}.

Record feed := {
  feed_title : option string;
  entries : list raw_entry
}.

(** [feedparser.parse] as a function of the feed URL; [None] when it raises. *)
Definition parser := string -> option feed.

(** [self.news_cache] and [self.last_fetch]; a time is a count of
    microseconds, as in [datetime]. *)
Record agent := {
  news_cache : gmap string (list article_ref);
  last_fetch : gmap string Z
}.

(** [__init__] *)
Definition init : agent := {| news_cache := ∅; last_fetch := ∅ |}.

Definition general_sources : list string :=
  ["https://rss.nytimes.com/services/xml/rss/nyt/HomePage.xml"].

Definition news_sources : list (string * list string) :=
  [("technology", ["https://techcrunch.com/feed/"; "https://www.wired.com/feed/rss"]);
   ("business", ["https://www.cnbc.com/id/10001147/device/rss/rss.html"]);
   ("politics", ["https://rss.nytimes.com/services/xml/rss/nyt/Politics.xml"]);
   ("science", ["https://www.science.org/rss/news_feeds/toc_science.xml"]);
   ("general", general_sources)].

(** [self.news_sources.get(category, self.news_sources["general"])] *)
Definition sources_for (category : string) : list string :=
  match List.find (fun kv => String.eqb (fst kv) category) news_sources with
  | Some kv => snd kv
  | None => general_sources
  end.

(** [timedelta(hours=1)] *)
Definition one_hour : Z := 3600000000.

(** The dictionary built for one entry; [None] when an attribute access
    raises ([entry.title], [entry.link], [feed.feed.title]). *)
Definition make_item (f : feed) (entry : raw_entry) : option article_ref :=
  match entry_title entry, entry_link entry, feed_title f with
  | Some t, Some l, Some src =>
      Some {| title := t;
              link := l;
              published := default "Unknown date" (entry_published entry);
              source := src;
              summary := default "No summary available" (entry_summary entry) |}
  | _, _, _ => None
  end.

(** The loop over [feed.entries[:5]] inside the [try]: an exception ends
    the loop and keeps what was appended before. *)
Fixpoint append_entries (f : feed) (es : list raw_entry)
    (all_entries : list article_ref) : list article_ref :=
  match es with
  | [] => all_entries
  | entry :: rest =>
      match make_item f entry with
      | Some item => append_entries f rest (all_entries ++ [item])
      | None => all_entries
      end
  end.

(** The loop over the sources; the second component lists the feed URLs
    handed to [feedparser.parse], in order. *)
Fixpoint fetch_sources (parse : parser) (sources : list string)
    (all_entries : list article_ref) (io : list string)
    : list article_ref * list string :=
  match sources with
  | [] => (all_entries, io)
  | source_url :: rest =>
      let all_entries :=
        match parse source_url with
        | Some f => append_entries f (firstn 5 (entries f)) all_entries
        | None => all_entries
        end in
      fetch_sources parse rest all_entries (io ++ [source_url])
  end.

(** The cache test at the head of [fetch_news]. *)
Definition fresh (self : agent) (now : Z) (category : string)
    (force_refresh : bool) : bool :=
  match last_fetch self !! category with
  | Some fetched_at => (now - fetched_at <? one_hour)%Z && negb force_refresh
  | None => false
  end.

(** Result of a call: the returned list, the agent afterwards, and the
    feed URLs fetched during the call. *)
Record outcome := {
  returned : list article_ref;
  after : agent;
  fetched : list string
}.

Definition fetch_news (parse : parser) (self : agent) (now : Z)
    (category : string) (force_refresh : bool) : outcome :=
  if fresh self now category force_refresh then
    {| returned := default [] (news_cache self !! category);
       after := self;
       fetched := [] |}
  else
    let '(all_entries, io) := fetch_sources parse (sources_for category) [] [] in
    {| returned := all_entries;
       after := {| news_cache := <[category := all_entries]> (news_cache self);
                   last_fetch := <[category := now]> (last_fetch self) |};
       fetched := io |}.

(** One call of [fetch_news] as seen from outside. *)
Record call := {
  call_parse : parser;
  call_now : Z;
  call_category : string;
  call_force : bool
}.

Definition run_call (self : agent) (c : call) : agent :=
  after (fetch_news (call_parse c) self (call_now c) (call_category c) (call_force c)).

Definition run_calls (self : agent) (cs : list call) : agent :=
  fold_left run_call cs self.

(** The agent states that calls of [fetch_news] can produce. *)
Inductive reachable : agent -> Prop :=
| reachable_init : reachable init
| reachable_step self c : reachable self -> reachable (run_call self c).

(** The calls allowed between a fetch of [category] at [t0] and a later
    read of it: calls for other categories, and reads of [category] that
    are served from the cache. *)
Definition quiet (category : string) (t0 : Z) (c : call) : Prop :=
  call_category c ≠ category
  ∨ (call_force c = false ∧ (call_now c - t0 < one_hour)%Z).

End Agent.

(** ** [final.py]: the suggested sources and the command-line run *)

Module Pipeline.
Import Dom.

Definition sources_prompt (query : string) : string :=
  "List three reputable news sources for " +:+ query +:+ ".".

(** [get_news_sources]: the completion is split into lines, each line is
    stripped and the empty ones are dropped; [None] when the call raises. *)
Definition get_news_sources (mistral : Summarize.completion) (query : string)
    : option (list string) :=
  match mistral (sources_prompt query) with
  | None => None
  | Some sources_text =>
      Some (map PyStr.strip
              (List.filter (fun source => PyStr.truthy (PyStr.strip source))
                 (PyStr.split PyStr.nl sources_text)))
  end.

(** Truthiness of what [scrape_article] returns. *)
Definition truthy_value (v : pyval) : bool :=
  match v with
  | PStr s => PyStr.truthy s
  | PList items => match items with [] => false | _ :: _ => true end
  end.

(** The loop of [main] over the URLs. *)
Definition scrape_all (w : Scrape.web) (urls : list string) : list pyval :=
  List.filter truthy_value (map (Scrape.scrape_article w) urls).

(** [summarize_news] strips every article before anything else: an
    article that is not a [str] raises there.  [None] stands for that. *)
Fixpoint as_texts (articles : list pyval) : option (list string) :=
  match articles with
  | [] => Some []
  | PStr s :: rest =>
      match as_texts rest with
      | Some texts => Some (s :: texts)
      | None => None
      end
  | PList _ :: _ => None
  end.

(** What [main] prints: one line of text, or the report of an exception
    ([An error occurred: ...], the text of the exception left open). *)
Inductive printed :=
| Out (line : string)
| ErrorOut.

Definition no_urls_message : string :=
  "Couldn't retrieve any news URLs. Try a different topic or check your internet connection.".

Definition no_content_message : string :=
  "Couldn't retrieve any article content. Try a different topic.".

Definition main (mistral : Summarize.completion) (search : Discover.web)
    (pages : Scrape.web) (topic : string) : printed :=
  match get_news_sources mistral topic with
  | None => ErrorOut
  | Some sources =>
      let urls := Discover.get_news_urls search topic in
      match urls with
      | [] => Out no_urls_message
      | _ :: _ =>
          let articles := scrape_all pages urls in
          match articles with
          | [] => Out no_content_message
          | _ :: _ =>
              match as_texts articles with
              | Some texts => Out (Summarize.summarize_news mistral texts)
              | None => ErrorOut
              end
          end
      end
  end.

End Pipeline.

(** ** [agent.py]: the commands of [MistralAgent] *)

Module Commands.
Import Agent.

(** [str(i)] for a non-negative integer. *)
Definition decimal (i : nat) : string := NilEmpty.string_of_uint (Nat.to_uint i).

(** Answer of the chat completion: it raises with a message, or carries a
    content that may be [None]. *)
Inductive chat_result :=
| ChatRaises (message : string)
| ChatContent (content : option string).

(** The outside world of a command.  [now k] is the value of
    [datetime.now()] in the [k]-th call of [fetch_news] that the command
    makes; [http_text] is the body of a page, or the message of the
    exception of the fetch.  The header decoration of the listing holds
    code points above 255 and [str.upper] leaves the code points below 256
    on some letters, so both are taken from the environment. *)
Record env := {
  feeds : parser;
  now : nat -> Z;
  http_text : string -> string + string;
  chat : string -> string -> chat_result;
  banner : string;
  upper : string -> string
}.

Definition SYSTEM_PROMPT : string :=
  Summarize.lines [
    "You are a helpful news assistant. Your role is to:";
    "1. Help users find the latest news on various topics";
    "2. Summarize news articles";
    "3. Provide trend analysis across news sources";
    "4. Answer questions about current events";
    "5. Organize news by category";
    "Be concise and informative in your responses." ].

(** [enumerate(items, 1)] *)
Fixpoint enumerate_from {A : Type} (i : nat) (items : list A) : list (nat * A) :=
  match items with
  | [] => []
  | item :: rest => (i, item) :: enumerate_from (S i) rest
  end.

Definition listing_block (entry : nat * article_ref) : string :=
  let '(i, item) := entry in
  decimal i +:+ ". **" +:+ title item +:+ "**" +:+ PyStr.nl
  +:+ "   Source: " +:+ source item +:+ " | " +:+ published item +:+ PyStr.nl
  +:+ "   Link: " +:+ link item +:+ PyStr.nl +:+ PyStr.nl.

Fixpoint concat_blocks (blocks : list string) : string :=
  match blocks with
  | [] => EmptyString
  | block :: rest => block +:+ concat_blocks rest
  end.

(** [format_news_response] *)
Definition format_news_response (e : env) (news_items : list article_ref)
    (category : string) : string :=
  match news_items with
  | [] => "No recent news found for " +:+ category +:+ "."
  | _ :: _ =>
      banner e +:+ " **LATEST " +:+ upper e category +:+ " NEWS** " +:+ banner e
      +:+ PyStr.nl +:+ PyStr.nl
      +:+ concat_blocks (map listing_block (enumerate_from 1 (firstn 5 news_items)))
      +:+ "Use `news summary <url>` to get a summary of any article."
  end.

Definition context_block (entry : nat * article_ref) : string :=
  let '(i, item) := entry in
  decimal i +:+ ". Title: " +:+ title item +:+ PyStr.nl
  +:+ "   Summary: " +:+ PyStr.slice_to 100 (summary item) +:+ "..." +:+ PyStr.nl
  +:+ "   Link: " +:+ link item +:+ PyStr.nl +:+ PyStr.nl.

Definition search_message (news_items : list article_ref) (query : string) : string :=
  "I'm looking for news about '" +:+ query +:+ "'. Here are the latest headlines:"
  +:+ PyStr.nl +:+ PyStr.nl
  +:+ concat_blocks (map context_block (enumerate_from 1 news_items))
  +:+ PyStr.nl +:+ PyStr.nl
  +:+ "Please find and list the most relevant articles to my query. Include the article numbers and links.".

(** What a coroutine of the agent gives back: a string, [None], or an
    exception that it lets through. *)
Inductive answer :=
| Reply (s : string)
| NoReply
| Failure.

Definition of_chat (r : chat_result) : answer :=
  match r with
  | ChatRaises _ => Failure
  | ChatContent (Some s) => Reply s
  | ChatContent None => NoReply
  end.

(** [search_news]: the completion call is not guarded. *)
Definition search_news (e : env) (news_items : list article_ref) (query : string)
    : answer :=
  match news_items with
  | [] => Reply "No news items available to search."
  | _ :: _ => of_chat (chat e SYSTEM_PROMPT (search_message news_items query))
  end.

Definition article_message (url html : string) : string :=
  "Article URL: " +:+ url +:+ PyStr.nl +:+ PyStr.nl
  +:+ "Content: " +:+ PyStr.slice_to 4000 html +:+ "...".

(** [summarize_article]: every exception becomes a reply. *)
Definition summarize_article (e : env) (url : string) : answer :=
  match http_text e url with
  | inr message => Reply ("Error summarizing article: " +:+ message)
  | inl html =>
      match chat e "Summarize the following news article in 3-4 concise bullet points."
              (article_message url html) with
      | ChatRaises message => Reply ("Error summarizing article: " +:+ message)
      | ChatContent (Some s) => Reply s
      | ChatContent None => NoReply
      end
  end.

(** The keys of [self.news_sources], in the order of the dictionary. *)
Definition categories : list string := map fst news_sources.

(** The [refresh] loop; [k] counts the calls of [fetch_news]. *)
Fixpoint refresh_all (e : env) (cats : list string) (k : nat) (self : agent)
    (io : list string) : agent * list string :=
  match cats with
  | [] => (self, io)
  | category :: rest =>
      let o := fetch_news (feeds e) self (now e k) category true in
      refresh_all e rest (S k) (after o) (io ++ fetched o)
  end.

(** Result of a command: the answer, the agent afterwards and the feed
    URLs fetched. *)
Record effect := {
  said : answer;
  agent_after : agent;
  feeds_fetched : list string
}.

Definition listing (e : env) (self : agent) (category : string) : effect :=
  let o := fetch_news (feeds e) self (now e 0) category false in
  {| said := Reply (format_news_response e (returned o) category);
     agent_after := after o;
     feeds_fetched := fetched o |}.

(** [process_command] *)
Definition process_command (e : env) (self : agent) (message_content : string)
    : effect :=
  let content := PyStr.lower message_content in
  if PyStr.startswith "news " content then
    let parts := PyStr.split_ws (PyStr.slice_from 5 content) in
    match parts with
    | [] => listing e self "general"
    | command :: more =>
        if existsb (String.eqb command) categories then listing e self command
        else if String.eqb command "summary" && (1 <? length parts) then
          {| said := summarize_article e (nth 1 parts EmptyString);
             agent_after := self;
             feeds_fetched := [] |}
        else if String.eqb command "refresh" then
          let '(self', io) := refresh_all e categories 0 self [] in
          {| said := Reply "News sources refreshed!";
             agent_after := self';
             feeds_fetched := io |}
        else
          let o := fetch_news (feeds e) self (now e 0) "general" false in
          {| said := search_news e (returned o) (PyStr.join " " parts);
             agent_after := after o;
             feeds_fetched := fetched o |}
    end
  else {| said := NoReply; agent_after := self; feeds_fetched := [] |}.

(** [run]: a command that gives a non-empty string answers the message;
    anything else goes to the chat completion. *)
Definition run (e : env) (self : agent) (message_content : string) : effect :=
  let r := process_command e self message_content in
  match said r with
  | Failure => r
  | Reply (String _ _ as s) => r
  | Reply EmptyString | NoReply =>
      {| said := of_chat (chat e SYSTEM_PROMPT message_content);
         agent_after := agent_after r;
         feeds_fetched := feeds_fetched r |}
  end.

End Commands.

(** ** [short.py]: the minimal pipeline *)

Module Short.
Import Dom.

(** [get_news_urls]: Bing only; an exception of the fetch leaves the list
    of links empty. *)
Definition bing_links (hs : list string) : list string :=
  List.filter (fun href => Discover.is_http href && negb (PyStr.contains "bing" href)) hs.

Definition get_news_urls (bing : string -> Discover.fetched) (query : string)
    : list string :=
  let article_links :=
    match bing query with
    | Discover.Raises => []
    | Discover.Got _ soup => bing_links (Discover.hrefs soup)
    end in
  Discover.first_unique article_links.

(** The container of [scrape_article]: the article element, the main
    element, then the div with the most paragraphs. *)
Definition select_container (soup : document) : option node :=
  let container := Scrape.find_tag "article" soup in
  let container :=
    if Scrape.usable container then container else Scrape.find_tag "main" soup in
  if Scrape.usable container then container
  else snd (Scrape.largest_div soup).

Definition extract (soup : document) : string :=
  match select_container soup with
  | Some container =>
      PyStr.join " "
        (List.filter PyStr.truthy
           (stripped_texts (find_all (has_tag "p") (descendants container))))
  | None =>
      PyStr.join " " (stripped_texts (find_all (has_tag "p") (doc_elements soup)))
  end.

(** [scrape_article]: the status of the response is not looked at, and
    every exception gives the empty string. *)
Definition scrape_article (fetch : string -> Discover.fetched) (url : string) : string :=
  match fetch url with
  | Discover.Raises => EmptyString
  | Discover.Got _ parsed =>
      let text := extract (decompose_all Scrape.unwanted parsed) in
      if PyStr.truthy text then PyStr.slice_to 5000 text else EmptyString
  end.

End Short.

(** ** Induction on parsed documents *)

Module DomInd.
Import Dom.

(** Induction on a parsed tree, with the property known of every child. *)
Fixpoint node_forall_ind (P : node -> Prop)
    (HText : forall s, P (Text s))
    (HElem : forall t a kids, Forall P kids -> P (Elem t a kids))
    (n : node) : P n :=
  match n with
  | Text s => HText s
  | Elem t a kids =>
      HElem t a kids
        ((fix all (ks : list node) : Forall P ks :=
            match ks with
            | [] => @List.Forall_nil node P
            | k :: rest =>
                @List.Forall_cons node P k rest (node_forall_ind P HText HElem k) (all rest)
            end) kids)
  end.

End DomInd.

(** ** Shapes of text used in the statements below *)

Module Shape.

(** No character of the string is whitespace. *)
Fixpoint space_free (s : string) : bool :=
  match s with
  | EmptyString => true
  | String c r => negb (PyStr.is_space c) && space_free r
  end.

(** A word: not empty and without whitespace. *)
Definition word (s : string) : Prop := s ≠ EmptyString ∧ space_free s = true.

(** [' '.join(s.split())] *)
Definition normalize (s : string) : string := PyStr.join " " (PyStr.split_ws s).

End Shape.

(** ** Concrete inputs used by the examples below *)

Module Samples.
Import Dom Agent Summarize Discover Scrape.

Definition sample_feed : feed :=
  {| feed_title := Some "NYT";
     entries := [ {| entry_title := Some "First"; entry_link := Some "http://a.test/1";
                     entry_published := None; entry_summary := Some "s" |} ] |}.

Definition sample_call : call :=
  {| call_parse := fun _ => None; call_now := 10; call_category := "science";
     call_force := true |}.

(** Three article texts, and completions that answer every prompt alike. *)
Definition sample_articles : list string :=
  ["The city council approved the new transit plan on Monday. Work starts in May.";
   "Officials said the transit plan will add two tram lines. Costs are shared.";
   "short"].



Definition failing_model : completion := fun _ => None.

(** An RSS answer whose two items carry the same link, and a world in
    which the Google News page cannot be fetched. *)
Definition rss_item (url : string) : node :=
  Elem "item" [] [Elem "title" [] [Text "Headline"]; Elem "link" [] [Text url]].

Definition repeated_rss : document :=
  [Elem "rss" [] [Elem "channel" []
     [rss_item "http://a.test/1"; rss_item "http://a.test/1"]]].

Definition rss_only_web : Discover.web :=
  {| google_news := fun _ => Raises;
     bing_news := fun _ => Raises;
     google_rss := fun _ => Got 200 repeated_rss;
     google_search := fun _ => Raises |}.

(** A world in which the RSS answer has no item, and a web search that
    would offer a link. *)
Definition redirect_page : document :=
  [Elem "a" [("href", "/url?q=http://b.test/story&sa=U")] [Text "story"]].

Definition empty_rss_web : Discover.web :=
  {| google_news := fun _ => Got 503 [];
     bing_news := fun _ => Raises;
     google_rss := fun _ => Got 200 [Elem "rss" [] [Elem "channel" [] []]];
     google_search := fun _ => Got 200 redirect_page |}.

(** Worlds for [scrape_article]: every URL is answered by one page. *)
Definition serve (status : Z) (body : string) (parsed : document) : Scrape.web :=
  {| requests_get := fun _ => Some {| status_code := status; text := body |};
     html_parser := fun _ => parsed;
     re_search_json_ld := fun _ => None;
     json_loads := fun _ => None |}.

(** A page that is only a title of 5001 characters. *)
Definition long_title : string := PyStr.repeat_char "a" 5001.

Definition long_title_page : document :=
  [Elem "html" []
     [Elem "head" [] [Elem "title" [] [Text long_title]]; Elem "body" [] []]].

Definition long_title_web : Scrape.web :=
  serve 200 ("<html><head><title>" +:+ long_title +:+ "</title></head><body></body></html>")
    long_title_page.

(** An MSN page whose JSON-LD object has a list as [articleBody]. *)
Definition msn_list_web : Scrape.web :=
  {| requests_get := fun _ => Some {| status_code := 200; text := "<html></html>" |};
     html_parser := fun _ => [Elem "html" [] []];
     re_search_json_ld := fun _ => Some "{}";
     json_loads := fun _ => Some (JObj [("articleBody", JArr [JStr "First part."])]) |}.

(** A page with an article element followed by a test-id container. *)
Definition article_element : node :=
  Elem "article" [] [Elem "p" [] [Text "Text held by the article element of the page."]].

Definition testid_element : node :=
  Elem "div" [("data-testid", "article-body")]
    [Elem "p" [] [Text "Text held by the test-id container of the page."]].

Definition two_containers_page : document :=
  [Elem "html" [] [Elem "body" [] [article_element; testid_element]]].

(** A 404 answer and an empty page. *)
Definition not_found_web : Scrape.web := serve 404 "Not Found" [Text "Not Found"].


End Samples.

(** ** Further concrete inputs *)

Module MoreSamples.
Import Dom Agent Discover Scrape Summarize Commands Samples.

Definition complete_entry (t : string) : raw_entry :=
  {| entry_title := Some t; entry_link := Some ("http://a.test/" +:+ t);
     entry_published := Some "today"; entry_summary := None |}.

Definition untitled_entry : raw_entry :=
  {| entry_title := None; entry_link := Some "http://a.test/x";
     entry_published := None; entry_summary := None |}.

(** A parser that fails on the first technology feed only. *)
Definition wired_only : parser :=
  fun url => if String.eqb url "https://techcrunch.com/feed/" then None
             else Some sample_feed.

(** A Google News page with two article links, and a world in which the
    Bing request raises. *)
Definition two_links_page : document :=
  [Elem "a" [("href", "./articles/one")] [Text "one"];
   Elem "a" [("href", "./articles/two")] [Text "two"];
   Elem "a" [("href", "/about")] [Text "about"]].

Definition bing_down_web : Discover.web :=
  {| google_news := fun _ => Got 200 two_links_page;
     bing_news := fun _ => Raises;
     google_rss := fun _ => Got 200 repeated_rss;
     google_search := fun _ => Raises |}.

Definition google_down (w : Discover.web) : Discover.web :=
  {| google_news := fun _ => Raises;
     bing_news := bing_news w;
     google_rss := google_rss w;
     google_search := google_search w |}.

Definition many_links_web : Discover.web :=
  {| google_news := fun _ => Got 200
       (two_links_page ++ [Elem "a" [("href", "./articles/one")] [];
                           Elem "a" [("href", "./articles/three")] []]);
     bing_news := fun _ => Raises;
     google_rss := fun _ => Raises;
     google_search := fun _ => Raises |}.

(** A page whose article text is longer than 100 characters. *)
Definition long_paragraph : string :=
  "The council voted on Monday evening to extend the tram network by two lines, after a debate that lasted more than four hours.".

Definition article_page : document :=
  [Elem "html" []
     [Elem "body" []
        [Elem "nav" [] [Elem "p" [] [Text "Home | World | Sport | Weather | Subscribe now"]];
         Elem "article" [] [Elem "p" [] [Text long_paragraph]]]]].

Definition paragraphs (n : nat) : list node :=
  repeat (Elem "p" [] [Text "A paragraph of the page."]) n.

Definition divs_page : document :=
  [Elem "div" [("id", "side")] (paragraphs 2);
   Elem "div" [("id", "body")] (paragraphs 4);
   Elem "div" [("id", "foot")] (paragraphs 4)].

(** A completion that lists sources and summarizes in one sentence. *)
Definition listing_model : completion :=
  fun prompt =>
    if PyStr.startswith "List three" prompt
    then Some ("  1. Reuters " +:+ PyStr.nl +:+ PyStr.nl +:+ "2. BBC News")
    else Some "Markets rose on Tuesday.".

(** [str.upper] on the unaccented letters. *)
Definition upper_char (c : ascii) : ascii :=
  let n := nat_of_ascii c in
  if (97 <=? n) && (n <=? 122) then ascii_of_nat (n - 32) else c.

Fixpoint ascii_upper (s : string) : string :=
  match s with
  | EmptyString => EmptyString
  | String c r => String (upper_char c) (ascii_upper r)
  end.

(** An environment in which every feed is [sample_feed], the clock shows
    [start + k] at the [k]-th fetch and the chat echoes the message. *)
Definition echo_env (start : Z) : env :=
  {| feeds := fun _ => Some sample_feed;
     now := fun k => (start + Z.of_nat k)%Z;
     http_text := fun url => inl ("<html>" +:+ url +:+ "</html>");
     chat := fun _ user => ChatContent (Some user);
     banner := "[news]";
     upper := ascii_upper |}.

Definition six_items : list article_ref :=
  map (fun t => {| title := t; link := "http://a.test/" +:+ t; published := "today";
                   source := "NYT"; summary := "s" |})
    ["a"; "b"; "c"; "d"; "e"; "f"].

End MoreSamples.

(** * Properties *)

(** ** Strings *)

#[local] Arguments String.append !_ _ / : simpl nomatch.

Section PyStrFacts.
Import PyStr.

Lemma append_assoc (a b c : string) : (a +:+ b) +:+ c = a +:+ b +:+ c.
Proof. induction a as [|x a IH]; simpl; [done|by f_equal]. Qed.

Lemma length_append (a b : string) :
  String.length (a +:+ b) = String.length a + String.length b.
Proof. induction a as [|x a IH]; simpl; [done|by f_equal]. Qed.

Lemma prefix_append (a b : string) : String.prefix a (a +:+ b) = true.
Proof.
  induction a as [|x a IH]; simpl; [by destruct b|].
  by destruct (ascii_dec x x).
Qed.

Lemma length_slice_to (n : nat) (s : string) : String.length (slice_to n s) <= n.
Proof.
  unfold slice_to. revert s.
  induction n as [|n IH]; intros [|c s]; cbn; try lia.
  specialize (IH s). lia.
Qed.

Lemma length_repeat_char (c : ascii) (n : nat) : String.length (repeat_char c n) = n.
Proof. induction n as [|n IH]; cbn; [done|by rewrite IH]. Qed.

Lemma truthy_length (s : string) : truthy s = true <-> 0 < String.length s.
Proof. destruct s; cbn; split; (done || lia). Qed.

(** Starting the scan later never finds more occurrences, and passing
    over less than one occurrence loses at most one. *)
Lemma count_from_skip (sub s : string) :
  (forall k k', k <= k' -> count_from sub k' s <= count_from sub k s)
  ∧ (forall j, j <= String.length sub - 1 ->
               count_from sub 0 s <= S (count_from sub j s)).
Proof.
  induction s as [|c s [IHa IHb]]; [by split; intros; cbn; lia|].
  assert (Ha : forall k k', k <= k' ->
             count_from sub k' (String c s) <= count_from sub k (String c s)).
  { intros [|k] [|k'] Hk; try lia.
    - cbn [count_from]. destruct (String.prefix sub (String c s)).
      + specialize (IHa 0 k' ltac:(lia)).
        specialize (IHb (String.length sub - 1) ltac:(lia)). lia.
      + apply IHa. lia.
    - cbn [count_from]. apply IHa. lia. }
  split; [done|].
  intros [|j] Hj; [lia|].
  cbn [count_from]. destruct (String.prefix sub (String c s)).
  - specialize (IHa j (String.length sub - 1) ltac:(lia)). lia.
  - apply IHb. lia.
Qed.

Lemma count_from_pass (sub a b : string) :
  count_from sub (String.length a) (a +:+ b) = count_from sub 0 b.
Proof. induction a as [|x a IH]; simpl; [done|exact IH]. Qed.

(** An occurrence followed by [b] counts for one more than [b] alone. *)
Lemma count_append_occurrence (sub a b : string) :
  0 < String.length sub ->
  S (count sub b) <= count sub (a +:+ sub +:+ b).
Proof.
  intros Hsub. unfold count.
  assert (Hpass : forall k x, k <= String.length x ->
            count_from sub 0 b <= count_from sub k (x +:+ b)).
  { intros k x Hk. rewrite <- (count_from_pass sub x b).
    by apply (proj1 (count_from_skip sub (x +:+ b))). }
  induction a as [|x a IH].
  - destruct sub as [|y sub]; [cbn in Hsub; lia|].
    change (EmptyString +:+ String y sub +:+ b) with (String y (sub +:+ b)).
    cbn [count_from].
    change (String y (sub +:+ b)) with (String y sub +:+ b).
    rewrite prefix_append.
    replace (String.length (String y sub) - 1) with (String.length sub) by (cbn; lia).
    rewrite count_from_pass. lia.
  - change (String x a +:+ sub +:+ b) with (String x (a +:+ sub +:+ b)).
    cbn [count_from].
    destruct (String.prefix sub (String x (a +:+ sub +:+ b))); [|done].
    rewrite <- append_assoc.
    specialize (Hpass (String.length sub - 1) (a +:+ sub)).
    rewrite length_append in Hpass. specialize (Hpass ltac:(lia)). lia.
Qed.

(** Two separators in a string are two counted occurrences. *)
Lemma count_two_occurrences (sub a b c : string) :
  0 < String.length sub ->
  2 <= count sub (a +:+ sub +:+ b +:+ sub +:+ c).
Proof.
  intros Hsub.
  pose proof (count_append_occurrence sub a (b +:+ sub +:+ c) Hsub).
  pose proof (count_append_occurrence sub b c Hsub).
  lia.
Qed.

End PyStrFacts.

(** * Properties *)

(** ** The feed cache *)

Section AgentFacts.
Import Agent Samples.

Lemma fetch_news_miss parse self now category force_refresh :
  fresh self now category force_refresh = false ->
  fetch_news parse self now category force_refresh =
    let r := fetch_sources parse (sources_for category) [] [] in
    {| returned := r.1;
       after := {| news_cache := <[category := r.1]> (news_cache self);
                   last_fetch := <[category := now]> (last_fetch self) |};
       fetched := r.2 |}.
Proof.
  intros Hfresh. unfold fetch_news. rewrite Hfresh.
  by destruct (fetch_sources parse (sources_for category) [] []).
Qed.

Lemma fetch_news_hit parse self now category force_refresh :
  fresh self now category force_refresh = true ->
  fetch_news parse self now category force_refresh =
    {| returned := default [] (news_cache self !! category);
       after := self;
       fetched := [] |}.
Proof. intros Hfresh. unfold fetch_news. by rewrite Hfresh. Qed.

(** What a call leaves at the keys of the other categories. *)
Lemma run_call_other self c category :
  call_category c ≠ category ->
  news_cache (run_call self c) !! category = news_cache self !! category
  ∧ last_fetch (run_call self c) !! category = last_fetch self !! category.
Proof.
  intros Hne. unfold run_call.
  destruct (fresh self (call_now c) (call_category c) (call_force c)) eqn:Hfresh.
  - by rewrite fetch_news_hit.
  - rewrite fetch_news_miss by done. cbn.
    by rewrite !lookup_insert_ne.
Qed.

Lemma run_calls_keep category t0 items calls : forall self,
  last_fetch self !! category = Some t0 ->
  news_cache self !! category = Some items ->
  Forall (quiet category t0) calls ->
  last_fetch (run_calls self calls) !! category = Some t0
  ∧ news_cache (run_calls self calls) !! category = Some items.
Proof.
  induction calls as [|c calls IH]; intros self Ht Hc Hq; [done|].
  apply Forall_cons in Hq as [Hc1 Hq]. cbn.
  apply IH; [| |done].
  - destruct (decide (call_category c = category)) as [Heq|Hne].
    + destruct Hc1 as [?|[Hforce Hnow]]; [done|].
      unfold run_call. rewrite fetch_news_hit; [done|].
      unfold fresh. rewrite Heq, Ht, Hforce.
      apply andb_true_intro; split; [by apply Z.ltb_lt|done].
    + by rewrite (proj2 (run_call_other self c category Hne)).
  - destruct (decide (call_category c = category)) as [Heq|Hne].
    + destruct Hc1 as [?|[Hforce Hnow]]; [done|].
      unfold run_call. rewrite fetch_news_hit; [done|].
      unfold fresh. rewrite Heq, Ht, Hforce.
      apply andb_true_intro; split; [by apply Z.ltb_lt|done].
    + by rewrite (proj1 (run_call_other self c category Hne)).
Qed.

(** C3: after a call of [fetch_news] that fetched the feeds of
    [category] at time [t0], a call with [force_refresh=False] less than
    one hour after [t0] returns the list stored by that fetch, hands no
    URL to the feed parser and leaves the agent unchanged; calls for
    other categories and cache reads may come in between. *)
Theorem fetch_news_within_ttl parse0 self t0 category force0 calls parse1 t1 :
  fresh self t0 category force0 = false ->
  Forall (quiet category t0) calls ->
  (t1 - t0 < one_hour)%Z ->
  let previous := fetch_news parse0 self t0 category force0 in
  let cached := run_calls (after previous) calls in
  fetch_news parse1 cached t1 category false =
    {| returned := returned previous; after := cached; fetched := [] |}.
Proof.
  intros Hmiss Hquiet Hnow previous cached.
  destruct (run_calls_keep category t0 (returned previous) calls (after previous))
    as [Ht Hc]; [| |done|].
  - subst previous. rewrite fetch_news_miss by done. cbn.
    by rewrite lookup_insert_eq.
  - subst previous. rewrite fetch_news_miss by done. cbn.
    by rewrite lookup_insert_eq.
  - fold cached in Ht, Hc.
    rewrite fetch_news_hit.
    + by rewrite Hc.
    + unfold fresh. rewrite Ht.
      apply andb_true_intro; split; [by apply Z.ltb_lt|done].
Qed.

Lemma fetch_news_within_ttl_witness :
  fetch_news (fun _ => None) (run_calls (after (fetch_news (fun _ => Some sample_feed)
      init 0 "general" false)) [sample_call]) 20 "general" false =
    {| returned := returned (fetch_news (fun _ => Some sample_feed) init 0 "general" false);
       after := run_calls (after (fetch_news (fun _ => Some sample_feed)
                  init 0 "general" false)) [sample_call];
       fetched := [] |}.
Proof.
  apply (fetch_news_within_ttl (fun _ => Some sample_feed) init 0 "general" false
           [sample_call] (fun _ => None) 20).
  - reflexivity.
  - constructor; [left; cbn; discriminate | constructor].
  - reflexivity.
Defined.

(** C10: a call of [fetch_news] either leaves the agent as it is or
    replaces, at the one key [category], the cached list by the list it
    returns and the fetch time by [now]; hence in every reachable state
    a category that has a fetch time has a cached list, and a call served
    from the cache returns that list (the default of [dict.get] is not
    needed). *)
Theorem cache_updated_together self :
  reachable self ->
  (forall parse now category force_refresh,
     let o := fetch_news parse self now category force_refresh in
     after o = self
     ∨ after o = {| news_cache := <[category := returned o]> (news_cache self);
                    last_fetch := <[category := now]> (last_fetch self) |})
  ∧ (forall category, is_Some (last_fetch self !! category) ->
                      is_Some (news_cache self !! category))
  ∧ (forall parse now category force_refresh,
       fresh self now category force_refresh = true ->
       news_cache self !! category =
         Some (returned (fetch_news parse self now category force_refresh))).
Proof.
  intros Hreach.
  assert (Hpair : forall category, is_Some (last_fetch self !! category) ->
                                   is_Some (news_cache self !! category)).
  { induction Hreach as [|self c Hreach IH]; intros category.
    - cbn. rewrite lookup_empty. by intros [? ?].
    - unfold run_call.
      destruct (fresh self (call_now c) (call_category c) (call_force c)) eqn:Hfresh.
      + rewrite fetch_news_hit by done. apply IH.
      + rewrite fetch_news_miss by done. cbn.
        destruct (decide (call_category c = category)) as [->|Hne].
        * rewrite !lookup_insert_eq. by eauto.
        * rewrite !lookup_insert_ne by done. apply IH. }
  split; [|split]; [|done|].
  - intros parse now category force_refresh o. subst o.
    destruct (fresh self now category force_refresh) eqn:Hfresh.
    + left. by rewrite fetch_news_hit.
    + right. by rewrite fetch_news_miss.
  - intros parse now category force_refresh Hfresh.
    rewrite fetch_news_hit by done. cbn.
    destruct (Hpair category) as [items Hitems]; [|by rewrite Hitems].
    unfold fresh in Hfresh.
    destruct (last_fetch self !! category); [by eauto|done].
Qed.

Lemma cache_updated_together_witness :
  news_cache (run_call init sample_call) !! "science"
  = Some (returned (fetch_news (fun _ => None) (run_call init sample_call)
                      20 "science" false)).
Proof.
  apply (proj2 (proj2 (cache_updated_together (run_call init sample_call)
                         (reachable_step init sample_call reachable_init)))).
  reflexivity.
Defined.

End AgentFacts.

(** ** Summarization *)

Section SummarizeFacts.
Import PyStr Summarize Samples.

Lemma break_length : 0 < String.length break.
Proof. cbn. lia. Qed.

Lemma summarize_news_cons mistral article articles :
  summarize_news mistral (article :: articles) =
    match complete mistral (combined_text (valid_articles (article :: articles))) with
    | Some summary => ensure_paragraphs summary
    | None => extractive (valid_articles (article :: articles))
    end.
Proof. reflexivity. Qed.

Lemma valid_articles_nonempty articles : articles ≠ [] -> valid_articles articles ≠ [].
Proof.
  intros Hne. unfold valid_articles.
  by destruct (List.filter _ articles).
Qed.

(** C8: for a non-empty list of article texts the batch is the list of
    the entries whose stripped text is longer than 50 characters, in
    their order, or the whole list when no entry is that long; the batch
    is never empty, and it is what the prompt and the fallback summary of
    [summarize_news] are built from. *)
Theorem batch_filtered_or_whole articles :
  articles ≠ [] ->
  let kept :=
    List.filter (fun article => 50 <? String.length (strip article)) articles in
  (kept ≠ [] -> valid_articles articles = kept)
  ∧ (kept = [] -> valid_articles articles = articles)
  ∧ valid_articles articles ≠ []
  ∧ (forall mistral,
       summarize_news mistral articles =
         match complete mistral (combined_text (valid_articles articles)) with
         | Some summary => ensure_paragraphs summary
         | None => extractive (valid_articles articles)
         end).
Proof.
  intros Hne kept. repeat split.
  - unfold valid_articles. fold kept. by destruct kept.
  - unfold valid_articles. fold kept. by intros ->.
  - by apply valid_articles_nonempty.
  - intros mistral. destruct articles; [done|apply summarize_news_cons].
Qed.

Lemma batch_filtered_or_whole_witness :
  valid_articles sample_articles = firstn 2 sample_articles
  ∧ valid_articles ["short"; "tiny"] = ["short"; "tiny"].
Proof.
  split.
  - apply (batch_filtered_or_whole sample_articles); [discriminate|].
    vm_compute. discriminate.
  - apply (batch_filtered_or_whole ["short"; "tiny"]); [discriminate|reflexivity].
Defined.








End SummarizeFacts.

(** ** URL discovery *)

Section DiscoverFacts.
Import Dom Discover Samples.

Lemma unique_loop_spec links : forall seen unique_links,
  NoDup unique_links ->
  (forall link, link ∈ unique_links -> link ∈ seen) ->
  length unique_links < 5 ->
  NoDup (unique_loop links seen unique_links)
  ∧ length (unique_loop links seen unique_links) <= 5.
Proof.
  induction links as [|link links IH]; intros seen acc Hnodup Hseen Hlen;
    cbn [unique_loop].
  - split; [done|lia].
  - case_bool_decide as Hin; [by apply IH|].
    assert (Hnodup' : NoDup (acc ++ [link])).
    { apply NoDup_app. repeat split; [done| |apply NoDup_singleton].
      intros x Hx ->%list_elem_of_singleton. by apply Hin, Hseen. }
    assert (Hlen' : length (acc ++ [link]) = S (length acc))
      by (rewrite length_app; cbn; lia).
    destruct (5 <=? length (acc ++ [link])) eqn:Hfull.
    + split; [done|lia].
    + apply Nat.leb_gt in Hfull. apply IH; [done| |done].
      intros x [Hx| ->%list_elem_of_singleton]%elem_of_app.
      * by apply elem_of_union_r, Hseen.
      * by apply elem_of_union_l, elem_of_singleton.
Qed.

(** The links returned by the primary search are distinct and at most five. *)
Lemma primary_unique w query links :
  primary w query = Some links -> NoDup links ∧ length links <= 5.
Proof.
  assert (Hfirst : forall l, NoDup (first_unique l) ∧ length (first_unique l) <= 5).
  { intros l. apply unique_loop_spec; [apply NoDup_nil_2|set_solver|cbn; lia]. }
  unfold primary. intros Hprimary.
  destruct (google_news w query) as [|status soup]; [done|].
  destruct (raise_for_status status); [done|].
  destruct (length (google_links (hrefs soup)) <? 3).
  - destruct (bing_news w query); [done|].
    injection Hprimary as <-. apply Hfirst.
  - injection Hprimary as <-. apply Hfirst.
Qed.

Lemma rss_links_length items : length (rss_links items) <= length items.
Proof.
  induction items as [|item items IH]; cbn; [lia|].
  destruct (find (has_tag "link") (descendants item)); [|lia].
  destruct (is_http _); cbn; lia.
Qed.

(** Whatever the search surfaces answer, at most five URLs are returned. *)
Lemma get_news_urls_at_most_five w query : length (get_news_urls w query) <= 5.
Proof.
  unfold get_news_urls, get_news_urls_in.
  destruct (primary w query) as [links|] eqn:Hprimary.
  - by apply primary_unique in Hprimary as [_ ?].
  - unfold rss_backup, global_sources.
    destruct (google_rss w query) as [|status rss_soup]; [cbn; lia|].
    destruct (raise_for_status status); [cbn; lia|].
    set (items := firstn 5 _).
    pose proof (rss_links_length items) as Hlen.
    assert (length items <= 5) by (subst items; rewrite length_take; lia).
    destruct (rss_links items); cbn in *; lia.
Qed.

(** C2 at the failing input: the Google News page cannot be fetched and
    the RSS feed lists one link twice; both copies are returned. *)
Theorem rss_links_not_deduplicated :
  get_news_urls rss_only_web "transit" = ["http://a.test/1"; "http://a.test/1"]
  ∧ ~ NoDup (get_news_urls rss_only_web "transit").
Proof.
  assert (Hrun : get_news_urls rss_only_web "transit"
                 = ["http://a.test/1"; "http://a.test/1"]) by (vm_compute; reflexivity).
  split; [done|].
  rewrite Hrun. intros Hnodup.
  apply NoDup_cons in Hnodup as [Hnotin _].
  apply Hnotin. left.
Qed.

(** [sources] is not bound by the module. *)
Lemma sources_unbound : module_binds "sources" = false.
Proof. reflexivity. Qed.

(** C9: when the primary block raises and the RSS query gives no valid
    link, the result is the empty list; and the answers of the web search
    used by the suggested-source branch never change the result. *)
Theorem no_rss_links_no_urls w query :
  primary w query = None ->
  (forall status rss_soup,
     google_rss w query = Got status rss_soup ->
     raise_for_status status = false ->
     rss_links (firstn 5 (find_all (has_tag "item") (doc_elements rss_soup))) = []) ->
  get_news_urls w query = []
  ∧ forall search,
      get_news_urls {| google_news := google_news w; bing_news := bing_news w;
                       google_rss := google_rss w; google_search := search |} query
      = get_news_urls w query.
Proof.
  intros Hprimary Hrss. split.
  - unfold get_news_urls, get_news_urls_in. rewrite Hprimary.
    unfold rss_backup, global_sources.
    destruct (google_rss w query) as [|status rss_soup] eqn:Hfetch; [done|].
    destruct (raise_for_status status) eqn:Hstatus; [done|].
    by rewrite (Hrss status rss_soup).
  - intros search. reflexivity.
Qed.

Lemma no_rss_links_no_urls_witness : get_news_urls empty_rss_web "transit" = [].
Proof.
  apply (no_rss_links_no_urls empty_rss_web "transit").
  - reflexivity.
  - intros status rss_soup Hfetch _.
    injection Hfetch as _ <-. reflexivity.
Defined.

End DiscoverFacts.

(** ** Article extraction *)

Section ScrapeFacts.
Import Dom Scrape ScrapeSpec Samples.

(** The text returned at the end of the [try] is cut at 5000 characters,
    unless it is the placeholder. *)
Lemma finish_bounded url title meta_desc text :
  String.length (finish url title meta_desc text) <= 5000
  ∨ finish url title meta_desc text = placeholder url.
Proof.
  unfold finish.
  destruct (PyStr.truthy _); [left; apply length_slice_to|by right].
Qed.

(** C1 at the failing input: a page answered with status 200 whose only
    content is a title of 5001 characters; the title is returned whole. *)
Theorem long_title_not_truncated :
  scrape_article long_title_web "http://a.test/1" = PStr long_title
  ∧ String.length long_title = 5001.
Proof. split; [vm_compute; reflexivity|apply length_repeat_char]. Qed.

(** On an MSN page the JSON-LD field is sliced whatever its type: a list
    comes back as a list. *)
Lemma msn_list_body_returned :
  scrape_article msn_list_web "https://www.msn.com/news/1" = PList [JStr "First part."].
Proof. reflexivity. Qed.

(** The loop over the divs computes the greatest paragraph count and the
    first div that reaches it. *)
Lemma largest_div_loop divs : forall most candidate,
  fold_left
    (fun '(max_p_count, candidate) div =>
       if max_p_count <? p_count div then (p_count div, Some div)
       else (max_p_count, candidate))
    divs (most, candidate)
  = (Nat.max most (list_max (map p_count divs)),
     if most <? list_max (map p_count divs)
     then List.find (fun div => p_count div =? list_max (map p_count divs)) divs
     else candidate).
Proof.
  induction divs as [|div divs IH]; intros most candidate.
  - cbn. rewrite Nat.max_0_r. by destruct most.
  - cbn [fold_left map list_max fold_right List.find].
    fold (list_max (map p_count divs)).
    set (rest := list_max (map p_count divs)) in *.
    destruct (most <? p_count div) eqn:Hnew; rewrite IH; fold rest.
    + apply Nat.ltb_lt in Hnew. f_equal; [lia|].
      destruct (p_count div <? rest) eqn:Hlater.
      * apply Nat.ltb_lt in Hlater.
        rewrite (proj2 (Nat.ltb_lt most (Nat.max (p_count div) rest))) by lia.
        rewrite (proj2 (Nat.eqb_neq (p_count div) (Nat.max (p_count div) rest))) by lia.
        replace (Nat.max (p_count div) rest) with rest by lia. done.
      * apply Nat.ltb_ge in Hlater.
        rewrite (proj2 (Nat.ltb_lt most (Nat.max (p_count div) rest))) by lia.
        by rewrite (proj2 (Nat.eqb_eq (p_count div) (Nat.max (p_count div) rest))) by lia.
    + apply Nat.ltb_ge in Hnew. f_equal; [lia|].
      destruct (most <? rest) eqn:Hlater.
      * apply Nat.ltb_lt in Hlater.
        rewrite (proj2 (Nat.ltb_lt most (Nat.max (p_count div) rest))) by lia.
        rewrite (proj2 (Nat.eqb_neq (p_count div) (Nat.max (p_count div) rest))) by lia.
        replace (Nat.max (p_count div) rest) with rest by lia. done.
      * apply Nat.ltb_ge in Hlater.
        by rewrite (proj2 (Nat.ltb_ge most (Nat.max (p_count div) rest))) by lia.
Qed.

Lemma big_div_largest soup :
  big_div soup =
    let '(max_p_count, candidate) := largest_div soup in
    if 3 <=? max_p_count then candidate else None.
Proof.
  unfold big_div, largest_div. rewrite largest_div_loop.
  set (divs := find_all (has_tag "div") (doc_elements soup)).
  set (most := list_max (map p_count divs)).
  rewrite Nat.max_0_l.
  destruct (3 <=? most) eqn:Hmost; [|done].
  apply Nat.leb_le in Hmost.
  by rewrite (proj2 (Nat.ltb_lt 0 most)) by lia.
Qed.

(** Rewrites with the outcomes of the tests made so far. *)
Ltac use_tests :=
  repeat (match goal with H : usable _ = _ |- _ => rewrite H end; simpl).

(** C4, in the order of the code: the element whose text is extracted is
    the first candidate with non-empty text among (b) the element with a
    test-id hinting at "article", (a) the article element, (c) the
    elements found by the class hints, in the order of the hint list,
    (d) the main element, (e) the first div holding the greatest number of
    paragraph elements, when that number is at least three. *)
Theorem container_follows_code_order soup :
  chosen_container soup = first_usable (candidates soup).
Proof.
  unfold chosen_container, select_container, first_usable, candidates,
    class_candidates, class_hints.
  rewrite (big_div_largest soup).
  cbn [class_loop map app List.find].
  generalize (find_testid soup) (find_tag "article" soup)
    (find_class "article" soup) (find_class "content" soup)
    (find_class "main" soup) (find_class "story" soup)
    (find_class "entry" soup) (find_class "post" soup)
    (find_class "text" soup) (find_class "body" soup)
    (find_tag "main" soup).
  intros testid article c1 c2 c3 c4 c5 c6 c7 c8 main.
  destruct (largest_div soup) as [max_p_count candidate].
  generalize (3 <=? max_p_count). intros enough.
  destruct (usable testid) eqn:?; simpl; use_tests; [done|].
  destruct (usable article) eqn:?; simpl; use_tests; [done|].
  destruct (usable c1) eqn:?; simpl; use_tests; [done|].
  destruct (usable c2) eqn:?; simpl; use_tests; [done|].
  destruct (usable c3) eqn:?; simpl; use_tests; [done|].
  destruct (usable c4) eqn:?; simpl; use_tests; [done|].
  destruct (usable c5) eqn:?; simpl; use_tests; [done|].
  destruct (usable c6) eqn:?; simpl; use_tests; [done|].
  destruct (usable c7) eqn:?; simpl; use_tests; [done|].
  destruct (usable c8) eqn:?; simpl; use_tests; [done|].
  destruct (usable main) eqn:?; simpl; use_tests; [done|].
  destruct enough; simpl; use_tests; [|done].
  by destruct (usable candidate).
Qed.

(** C4 as stated fails: on a page with an article element followed by a
    test-id container the text is taken from the test-id container, where
    the listed order gives the article element. *)
Lemma testid_tried_before_article :
  chosen_container (decompose_all unwanted two_containers_page) = Some testid_element
  ∧ first_usable (listed_candidates (decompose_all unwanted two_containers_page))
    = Some article_element
  ∧ scrape_article (serve 200 "" two_containers_page) "http://a.test/1"
    = PStr "Text held by the test-id container of the page.".
Proof. repeat split; vm_compute; reflexivity. Qed.





End ScrapeFacts.

(** ** The embedding on small inputs *)

Section Examples.
Import Dom Scrape Discover Summarize Agent Samples.

Example split_sentences :
  PyStr.split ". " "One. Two. Three" = ["One"; "Two"; "Three"].
Proof. reflexivity. Qed.

Example split_trailing : PyStr.split ". " "a. " = ["a"; ""].
Proof. reflexivity. Qed.

Example split_overlap : PyStr.split "aa" "aaaa" = [""; ""; ""].
Proof. reflexivity. Qed.

Example count_overlap : PyStr.count "aa" "aaa" = 1.
Proof. reflexivity. Qed.

Example count_breaks :
  PyStr.count break ("a" +:+ PyStr.nl +:+ PyStr.nl +:+ PyStr.nl +:+ "b") = 1.
Proof. reflexivity. Qed.

Example split_ws_runs : PyStr.split_ws "  a  bc d " = ["a"; "bc"; "d"].
Proof. reflexivity. Qed.

Example strip_both : PyStr.strip "  a b  " = "a b".
Proof. reflexivity. Qed.

Example lower_mixed : PyStr.lower "Data-TestID" = "data-testid".
Proof. reflexivity. Qed.

Example strip_chars_word : strip_chars ".,:**" "**reuters:" = "reuters".
Proof. reflexivity. Qed.

Example domain_of_url :
  error_placeholder "https://a.test/news/1"
  = "Article from a.test. Unable to extract content.".
Proof. reflexivity. Qed.

Example decompose_nav :
  decompose_all unwanted
    [Elem "body" [] [Elem "nav" [] [Text "menu"]; Elem "p" [] [Text "kept"]]]
  = [Elem "body" [] [Elem "p" [] [Text "kept"]]].
Proof. reflexivity. Qed.

Example resplit_six :
  ensure_paragraphs "One. Two. Three. Four. Five. Six"
  = "One. Two." +:+ break +:+ "Three. Four." +:+ break +:+ "Five. Six.".
Proof. reflexivity. Qed.

Example extractive_two_articles :
  extractive ["A one. A two."; "B one."]
  = "A one." +:+ break +:+ "A two." +:+ break +:+ "B one.".
Proof. reflexivity. Qed.

Example unique_five :
  first_unique ["u1"; "u2"; "u1"; "u3"; "u4"; "u5"; "u6"]
  = ["u1"; "u2"; "u3"; "u4"; "u5"].
Proof. vm_compute. reflexivity. Qed.

Example redirect_target :
  collect_redirects (hrefs redirect_page) [] = (["http://b.test/story"], false).
Proof. reflexivity. Qed.

(** With a bound [sources] the web search would add a link; the module
    leaves the name unbound and the result is empty. *)
Example bound_sources_would_add :
  get_news_urls_in (Some ["1. Reuters"]) empty_rss_web "transit" = ["http://b.test/story"]
  ∧ get_news_urls empty_rss_web "transit" = [].
Proof. split; reflexivity. Qed.

Example first_fetch_stores :
  let o := fetch_news (fun _ => Some sample_feed) init 0 "sports" false in
  fetched o = general_sources
  ∧ map title (returned o) = ["First"]
  ∧ map published (returned o) = ["Unknown date"]
  ∧ last_fetch (after o) !! "sports" = Some 0%Z.
Proof. vm_compute. repeat split. Qed.

End Examples.

(** ** More on the feed cache *)

Section AgentMore.
Import Agent Samples MoreSamples.

Lemma sources_for_unregistered category :
  ~ In category (map fst news_sources) -> sources_for category = general_sources.
Proof.
  intros Hout. unfold sources_for.
  destruct (List.find _ news_sources) as [kv|] eqn:Hfind; [|done].
  apply find_some in Hfind as [Hin Heq].
  apply String.eqb_eq in Heq. destruct Hout.
  rewrite <- Heq. by apply in_map.
Qed.

Lemma sources_for_at_most_two category : length (sources_for category) <= 2.
Proof.
  unfold sources_for, news_sources. cbn [List.find fst snd].
  repeat (destruct (String.eqb _ category); [cbn; lia|]).
  cbn. lia.
Qed.

Lemma append_entries_length f es all_entries :
  length (append_entries f es all_entries) <= length all_entries + length es.
Proof.
  revert all_entries. induction es as [|entry es IH]; intros acc; cbn; [lia|].
  destruct (make_item f entry) as [item|]; [|lia].
  specialize (IH (acc ++ [item])). rewrite length_app in IH. cbn in IH. lia.
Qed.

Lemma fetch_sources_length parse sources : forall all_entries io,
  length (fetch_sources parse sources all_entries io).1
  <= length all_entries + 5 * length sources.
Proof.
  induction sources as [|url sources IH]; intros acc io; cbn [fetch_sources]; [cbn; lia|].
  etrans; [apply IH|]. cbn [length].
  destruct (parse url) as [f|]; [|lia].
  pose proof (append_entries_length f (firstn 5 (entries f)) acc) as Hlen.
  rewrite length_take in Hlen. lia.
Qed.

(** The entries do not depend on the list of URLs recorded so far. *)
Lemma fetch_sources_entries parse sources : forall all_entries io io',
  (fetch_sources parse sources all_entries io).1
  = (fetch_sources parse sources all_entries io').1.
Proof.
  induction sources as [|url sources IH]; intros acc io io'; cbn [fetch_sources]; [done|].
  apply IH.
Qed.

Lemma fetch_sources_trace parse sources : forall all_entries io,
  (fetch_sources parse sources all_entries io).2 = io ++ sources.
Proof.
  induction sources as [|url sources IH]; intros acc io; cbn [fetch_sources].
  - by rewrite app_nil_r.
  - rewrite IH. by rewrite <- app_assoc.
Qed.

(** X1: A category outside the registry is served from the general feed: a
    call that fetches parses exactly the general feed, returns what a
    forced fetch of "general" returns, and stores the list under the key
    that was asked for. *)
Theorem unregistered_category_general parse self now category force_refresh :
  ~ In category (map fst news_sources) ->
  fresh self now category force_refresh = false ->
  let o := fetch_news parse self now category force_refresh in
  fetched o = general_sources
  ∧ returned o = returned (fetch_news parse self now "general" true)
  ∧ news_cache (after o) !! category = Some (returned o).
Proof.
  intros Hout Hmiss o. subst o.
  rewrite fetch_news_miss by done. cbn [returned after fetched news_cache].
  rewrite (sources_for_unregistered category Hout).
  assert (Hforce : fresh self now "general" true = false).
  { unfold fresh. destruct (last_fetch self !! "general"); [|done].
    by rewrite andb_false_r. }
  rewrite (fetch_news_miss parse self now "general" true Hforce).
  cbn [returned]. change (sources_for "general") with general_sources.
  split; [by rewrite fetch_sources_trace|].
  split; [done|by rewrite lookup_insert_eq].
Qed.

Lemma unregistered_category_general_witness :
  fetched (fetch_news (fun _ => Some sample_feed) init 0 "sports" false) = general_sources.
Proof.
  apply (unregistered_category_general (fun _ => Some sample_feed) init 0 "sports" false).
  - cbn. intros H. repeat (destruct H as [H|H]; [discriminate H|]). done.
  - reflexivity.
Defined.

(** X2: No call returns more than ten items, and no cached list is longer:
    five entries at most from each of two feeds at most. *)
Theorem at_most_ten_items self :
  reachable self ->
  (forall category items,
     news_cache self !! category = Some items -> length items <= 10)
  ∧ (forall parse now category force_refresh,
       length (returned (fetch_news parse self now category force_refresh)) <= 10).
Proof.
  intros Hreach.
  assert (Hfetch : forall parse category,
            length (fetch_sources parse (sources_for category) [] []).1 <= 10).
  { intros parse category.
    pose proof (fetch_sources_length parse (sources_for category) [] []) as Hlen.
    pose proof (sources_for_at_most_two category). cbn [length] in Hlen. lia. }
  assert (Hcache : forall category items,
            news_cache self !! category = Some items -> length items <= 10).
  { induction Hreach as [|self c Hreach IH]; intros category items.
    - cbn. by rewrite lookup_empty.
    - unfold run_call.
      destruct (fresh self (call_now c) (call_category c) (call_force c)) eqn:Hfresh.
      + rewrite fetch_news_hit by done. apply IH.
      + rewrite fetch_news_miss by done. cbn [after news_cache].
        destruct (decide (call_category c = category)) as [->|Hne].
        * rewrite lookup_insert_eq. intros [= <-]. apply Hfetch.
        * rewrite lookup_insert_ne by done. apply IH. }
  split; [done|].
  intros parse now category force_refresh.
  destruct (fresh self now category force_refresh) eqn:Hfresh.
  - rewrite fetch_news_hit by done. cbn [returned].
    destruct (news_cache self !! category) as [items|] eqn:Hitems; cbn; [|lia].
    by apply (Hcache category).
  - rewrite fetch_news_miss by done. apply Hfetch.
Qed.

Lemma at_most_ten_items_witness :
  length (returned (fetch_news (fun _ => Some sample_feed)
                      (run_call init sample_call) 20 "technology" false)) <= 10.
Proof.
  apply (at_most_ten_items (run_call init sample_call)
           (reachable_step init sample_call reachable_init)).
Defined.

(** X3: A feed whose parse raises adds nothing and takes nothing away: the
    entries are those of the other feeds, and the feed still counts as
    fetched. *)
Theorem failing_feed_skipped parse before url behind :
  parse url = None ->
  (fetch_sources parse (before ++ url :: behind) [] []).1
  = (fetch_sources parse (before ++ behind) [] []).1
  ∧ (fetch_sources parse (before ++ url :: behind) [] []).2 = before ++ url :: behind.
Proof.
  intros Hfail. split; [|by rewrite fetch_sources_trace].
  assert (Hgen : forall all_entries io io',
            (fetch_sources parse (before ++ url :: behind) all_entries io).1
            = (fetch_sources parse (before ++ behind) all_entries io').1).
  { induction before as [|first before IH]; intros acc io io'; cbn [app fetch_sources].
    - rewrite Hfail. apply fetch_sources_entries.
    - apply IH. }
  apply Hgen.
Qed.

Lemma failing_feed_skipped_witness :
  (fetch_sources wired_only
     ([] ++ "https://techcrunch.com/feed/" :: ["https://www.wired.com/feed/rss"]) [] []).1
  = (fetch_sources wired_only ([] ++ ["https://www.wired.com/feed/rss"]) [] []).1.
Proof.
  apply (failing_feed_skipped wired_only [] "https://techcrunch.com/feed/"
           ["https://www.wired.com/feed/rss"]).
  reflexivity.
Defined.

(** X4: When every feed of the category fails, the call still stores the
    empty list with the time of the call: for the next hour the category
    is answered with the empty list and no feed is fetched, whatever the
    feeds would give by then. *)
Theorem failed_fetch_is_cached parse self now category force_refresh parse' later :
  (forall url, In url (sources_for category) -> parse url = None) ->
  fresh self now category force_refresh = false ->
  (later - now < one_hour)%Z ->
  let o := fetch_news parse self now category force_refresh in
  returned o = []
  ∧ fetch_news parse' (after o) later category false
    = {| returned := []; after := after o; fetched := [] |}.
Proof.
  intros Hfail Hmiss Hlater o.
  assert (Hempty : forall sources io,
            (forall url, In url sources -> parse url = None) ->
            (fetch_sources parse sources [] io).1 = []).
  { induction sources as [|url sources IH]; intros io Hall; cbn [fetch_sources]; [done|].
    rewrite (Hall url) by (by left). apply IH. intros u Hu. apply Hall. by right. }
  assert (Ho : returned o = []).
  { subst o. rewrite fetch_news_miss by done. cbn [returned]. by apply Hempty. }
  split; [done|].
  rewrite fetch_news_hit.
  - subst o. rewrite fetch_news_miss by done. cbn [after news_cache].
    rewrite lookup_insert_eq. cbn [default].
    rewrite fetch_news_miss in Ho by done. cbn [returned] in Ho. by rewrite Ho.
  - subst o. rewrite fetch_news_miss by done. unfold fresh. cbn [after last_fetch].
    rewrite lookup_insert_eq.
    apply andb_true_intro; split; [by apply Z.ltb_lt|done].
Qed.

Lemma failed_fetch_is_cached_witness :
  fetch_news (fun _ => Some sample_feed)
    (after (fetch_news (fun _ => None) init 0 "science" false)) 5 "science" false
  = {| returned := []; after := after (fetch_news (fun _ => None) init 0 "science" false);
       fetched := [] |}.
Proof.
  apply (failed_fetch_is_cached (fun _ => None) init 0 "science" false
           (fun _ => Some sample_feed) 5); reflexivity || done.
Defined.

(** X5: A call for one category leaves the cached list and the fetch time of
    every other category as they were. *)
Theorem other_categories_untouched parse self now category force_refresh other :
  other ≠ category ->
  let o := fetch_news parse self now category force_refresh in
  news_cache (after o) !! other = news_cache self !! other
  ∧ last_fetch (after o) !! other = last_fetch self !! other.
Proof.
  intros Hne o. subst o.
  destruct (fresh self now category force_refresh) eqn:Hfresh.
  - by rewrite fetch_news_hit.
  - rewrite fetch_news_miss by done. cbn [after news_cache last_fetch].
    by rewrite !lookup_insert_ne.
Qed.

Lemma other_categories_untouched_witness :
  news_cache (after (fetch_news (fun _ => None)
     (after (fetch_news (fun _ => Some sample_feed) init 0 "general" false))
     1 "science" true)) !! "general"
  = news_cache (after (fetch_news (fun _ => Some sample_feed) init 0 "general" false))
      !! "general".
Proof.
  apply (other_categories_untouched (fun _ => None)
           (after (fetch_news (fun _ => Some sample_feed) init 0 "general" false))
           1 "science" true "general").
  discriminate.
Defined.

(** X6: One hour after the last fetch of a category the cached list is not
    used any more: the call fetches the feeds of the category again and
    records the new time. *)
Theorem stale_entry_refetched parse self now category force_refresh fetched_at :
  last_fetch self !! category = Some fetched_at ->
  (one_hour <= now - fetched_at)%Z ->
  let o := fetch_news parse self now category force_refresh in
  fetched o = sources_for category
  ∧ last_fetch (after o) !! category = Some now
  ∧ news_cache (after o) !! category = Some (returned o).
Proof.
  intros Hlast Hstale o. subst o.
  assert (Hmiss : fresh self now category force_refresh = false).
  { unfold fresh. rewrite Hlast.
    by rewrite (proj2 (Z.ltb_ge (now - fetched_at) one_hour) Hstale). }
  rewrite fetch_news_miss by done. cbn [fetched after last_fetch news_cache returned].
  rewrite fetch_sources_trace, !lookup_insert_eq. done.
Qed.

Lemma stale_entry_refetched_witness :
  fetched (fetch_news (fun _ => None)
             (after (fetch_news (fun _ => Some sample_feed) init 0 "general" false))
             3600000000 "general" false)
  = sources_for "general".
Proof.
  apply (stale_entry_refetched (fun _ => None)
           (after (fetch_news (fun _ => Some sample_feed) init 0 "general" false))
           3600000000 "general" false 0); reflexivity || done.
Defined.

(** X7: An entry without a title or a link ends the reading of its feed: the
    entries before it are kept, the entries after it are not read. *)
Theorem malformed_entry_ends_feed f good bad rest all_entries :
  make_item f bad = None ->
  append_entries f (good ++ bad :: rest) all_entries = append_entries f good all_entries.
Proof.
  intros Hbad. revert all_entries.
  induction good as [|entry good IH]; intros acc; cbn [app append_entries].
  - by rewrite Hbad.
  - destruct (make_item f entry); [apply IH|done].
Qed.

Lemma malformed_entry_ends_feed_witness :
  append_entries sample_feed
    ([complete_entry "one"] ++ untitled_entry :: [complete_entry "two"]) []
  = append_entries sample_feed [complete_entry "one"] [].
Proof.
  apply (malformed_entry_ends_feed sample_feed [complete_entry "one"] untitled_entry
           [complete_entry "two"] []).
  reflexivity.
Defined.

(** X8: In every reachable state the two dictionaries have the same keys. *)
Theorem cache_keys_coincide self :
  reachable self -> dom (news_cache self) = dom (last_fetch self).
Proof.
  induction 1 as [|self c Hreach IH]; [done|].
  unfold run_call.
  destruct (fresh self (call_now c) (call_category c) (call_force c)) eqn:Hfresh.
  - by rewrite fetch_news_hit.
  - rewrite fetch_news_miss by done. cbn [after news_cache last_fetch].
    by rewrite !dom_insert_L, IH.
Qed.

Lemma cache_keys_coincide_witness :
  dom (news_cache (run_call init sample_call)) = dom (last_fetch (run_call init sample_call)).
Proof.
  apply (cache_keys_coincide (run_call init sample_call)
           (reachable_step init sample_call reachable_init)).
Defined.

End AgentMore.

(** ** More on URL discovery *)

Section DiscoverMore.
Import Dom Discover Samples MoreSamples.

(** What the loop keeps is taken from the links, in their order. *)
Lemma unique_loop_sublist links : forall seen unique_links,
  exists kept, unique_loop links seen unique_links = unique_links ++ kept
               ∧ kept `sublist_of` links.
Proof.
  induction links as [|link links IH]; intros seen acc; cbn [unique_loop].
  - exists []. by rewrite app_nil_r.
  - case_bool_decide as Hin.
    + destruct (IH seen acc) as (kept & -> & Hsub).
      exists kept. split; [done|by apply sublist_cons].
    + destruct (5 <=? length (acc ++ [link])).
      * exists [link]. split; [done|]. apply sublist_skip, sublist_nil_l.
      * destruct (IH ({[link]} ∪ seen) (acc ++ [link])) as (kept & -> & Hsub).
        exists (link :: kept). split; [by rewrite <- app_assoc|by apply sublist_skip].
Qed.

Lemma first_unique_sublist links : first_unique links `sublist_of` links.
Proof.
  destruct (unique_loop_sublist links ∅ []) as (kept & Heq & Hsub).
  unfold first_unique. by rewrite Heq.
Qed.

(** On links without repetition the loop is a plain cut at five. *)
Lemma unique_loop_nodup links : forall seen unique_links,
  NoDup (unique_links ++ links) ->
  (forall link, link ∈ seen -> link ∈ unique_links) ->
  length unique_links < 5 ->
  unique_loop links seen unique_links = firstn 5 (unique_links ++ links).
Proof.
  induction links as [|link links IH]; intros seen acc Hnodup Hseen Hlen;
    cbn [unique_loop].
  - rewrite app_nil_r. by rewrite take_ge by lia.
  - apply NoDup_app in Hnodup as Hparts. destruct Hparts as (Hacc & Hsep & Hlinks).
    rewrite bool_decide_eq_false_2.
    2: { intros Hin%Hseen. apply (Hsep link Hin). by left. }
    assert (Hlen' : length (acc ++ [link]) = S (length acc))
      by (rewrite length_app; cbn; lia).
    replace (acc ++ link :: links) with ((acc ++ [link]) ++ links)
      by (by rewrite <- app_assoc).
    destruct (5 <=? length (acc ++ [link])) eqn:Hfull.
    + apply Nat.leb_le in Hfull.
      rewrite take_app_le by lia. by rewrite take_ge by lia.
    + apply Nat.leb_gt in Hfull. apply IH; [| |done].
      * by rewrite <- app_assoc.
      * intros x [->%elem_of_singleton|Hx%Hseen]%elem_of_union;
          apply elem_of_app; [right; by left|by left].
Qed.

(** X9: [# Take the first 5 unique links]: the links kept are links of the
    input in their order of appearance; an input without repetition is
    cut at five and otherwise left as it is. *)
Theorem first_unique_keeps_order links :
  first_unique links `sublist_of` links
  ∧ (NoDup links -> first_unique links = firstn 5 links).
Proof.
  split; [apply first_unique_sublist|].
  intros Hnodup. unfold first_unique.
  rewrite unique_loop_nodup; [done|done|set_solver|cbn; lia].
Qed.

Lemma first_unique_keeps_order_witness :
  first_unique ["u1"; "u2"; "u3"; "u4"; "u5"; "u6"] = ["u1"; "u2"; "u3"; "u4"; "u5"].
Proof.
  apply (proj2 (first_unique_keeps_order ["u1"; "u2"; "u3"; "u4"; "u5"; "u6"])).
  apply (bool_decide_unpack _). vm_compute. exact I.
Defined.

Lemma google_links_http hs : Forall (fun link => is_http link = true) (google_links hs).
Proof.
  induction hs as [|href hs IH]; cbn [google_links]; [done|].
  destruct (PyStr.startswith "./articles" href); [|done].
  constructor; [|done].
  unfold is_http, PyStr.startswith. apply orb_true_intro. right.
  change ("https://news.google.com" +:+ PyStr.slice_from 1 href)
    with ("https://" +:+ "news.google.com" +:+ PyStr.slice_from 1 href).
  apply prefix_append.
Qed.

Lemma bing_loop_http hs : forall article_links,
  Forall (fun link => is_http link = true) article_links ->
  Forall (fun link => is_http link = true) (bing_loop hs article_links).
Proof.
  induction hs as [|href hs IH]; intros acc Hacc; cbn [bing_loop]; [done|].
  destruct (is_http href) eqn:Hhttp; cbn [andb]; [|by apply IH].
  destruct (negb (PyStr.contains "bing" href) && negb (PyStr.contains "microsoft" href));
    [|by apply IH].
  assert (Forall (fun link => is_http link = true) (acc ++ [href])).
  { apply Forall_app. split; [done|]. by constructor. }
  destruct (5 <=? length (acc ++ [href])); [done|by apply IH].
Qed.

Lemma rss_links_http items : Forall (fun link => is_http link = true) (rss_links items).
Proof.
  induction items as [|item items IH]; cbn [rss_links]; [done|].
  destruct (find (has_tag "link") (descendants item)); [|done].
  destruct (is_http _) eqn:Hhttp; [by constructor|done].
Qed.

Lemma first_unique_forall (P : string -> Prop) links :
  Forall P links -> Forall P (first_unique links).
Proof.
  intros Hall. apply Forall_forall. intros x Hx.
  rewrite Forall_forall in Hall. apply Hall.
  exact (elem_of_sublist _ _ _ Hx (first_unique_sublist links)).
Qed.

(** X10: Whatever the search surfaces answer, [get_news_urls] returns at most
    five URLs and each of them starts with [http://] or [https://]. *)
Theorem urls_bounded_and_absolute w query :
  length (get_news_urls w query) <= 5
  ∧ Forall (fun url => is_http url = true) (get_news_urls w query).
Proof.
  split; [apply get_news_urls_at_most_five|].
  unfold get_news_urls, get_news_urls_in.
  destruct (primary w query) as [links|] eqn:Hprimary.
  - unfold primary in Hprimary.
    destruct (google_news w query) as [|status soup]; [done|].
    destruct (raise_for_status status); [done|].
    destruct (length (google_links (hrefs soup)) <? 3).
    + destruct (bing_news w query) as [|? fallback_soup]; [done|].
      injection Hprimary as <-.
      apply first_unique_forall, bing_loop_http, google_links_http.
    + injection Hprimary as <-. apply first_unique_forall, google_links_http.
  - unfold rss_backup, global_sources.
    destruct (google_rss w query) as [|status rss_soup]; [done|].
    destruct (raise_for_status status); [done|].
    pose proof (rss_links_http
                  (firstn 5 (find_all (has_tag "item") (doc_elements rss_soup)))) as Hhttp.
    by destruct (rss_links _).
Qed.

(** X11: When the primary block runs to its end, its links are the result:
    they are distinct, and the RSS feed is not looked at. *)
Theorem primary_links_distinct w query links :
  primary w query = Some links ->
  get_news_urls w query = links ∧ NoDup links.
Proof.
  intros Hprimary. split.
  - unfold get_news_urls, get_news_urls_in. by rewrite Hprimary.
  - by apply primary_unique in Hprimary as [? _].
Qed.

Lemma primary_links_distinct_witness :
  NoDup ["https://news.google.com/articles/one"; "https://news.google.com/articles/two";
         "https://news.google.com/articles/three"].
Proof.
  apply (primary_links_distinct many_links_web "transit").
  vm_compute. reflexivity.
Defined.

(** X12: When Google News gives fewer than three article links and the Bing
    request raises, the links already found are dropped: the result is
    the one obtained when the Google News request itself fails. *)
Theorem bing_failure_drops_google_links w query status soup :
  google_news w query = Got status soup ->
  raise_for_status status = false ->
  length (google_links (hrefs soup)) < 3 ->
  bing_news w query = Raises ->
  get_news_urls w query = get_news_urls (google_down w) query.
Proof.
  intros Hgoogle Hstatus Hfew Hbing.
  unfold get_news_urls, get_news_urls_in, primary.
  rewrite Hgoogle, Hstatus, Hbing.
  by rewrite (proj2 (Nat.ltb_lt _ _) Hfew).
Qed.

Lemma bing_failure_drops_google_links_witness :
  get_news_urls bing_down_web "transit" = get_news_urls (google_down bing_down_web) "transit".
Proof.
  apply (bing_failure_drops_google_links bing_down_web "transit" 200 two_links_page);
    [reflexivity | reflexivity | vm_compute; lia | reflexivity].
Defined.

End DiscoverMore.

(** ** More on article extraction *)

Section ScrapeMore.
Import Dom DomInd Scrape ScrapeSpec Shape Samples MoreSamples.

Lemma has_tag_in_elem tags t a kids :
  has_tag_in tags (Elem t a kids) = existsb (String.eqb t) tags.
Proof. reflexivity. Qed.

Lemma prune_clean tags n :
  Forall (fun m => has_tag_in tags m = false) (flat_map elements (prune tags n)).
Proof.
  induction n as [s|t a kids IH] using node_forall_ind; cbn [prune].
  - by cbn.
  - destruct (existsb (String.eqb t) tags) eqn:Htag; [by cbn|].
    cbn [flat_map elements]. rewrite app_nil_r.
    constructor; [by rewrite has_tag_in_elem|].
    induction IH as [|k kids Hk _ IHkids]; [by cbn|].
    cbn [flat_map]. rewrite flat_map_app. by apply Forall_app.
Qed.

Lemma decompose_all_clean tags parsed :
  Forall (fun n => has_tag_in tags n = false) (doc_elements (decompose_all tags parsed)).
Proof.
  unfold doc_elements, decompose_all.
  induction parsed as [|n parsed IH]; [by cbn|].
  cbn [flat_map]. rewrite flat_map_app.
  apply Forall_app. split; [apply prune_clean|done].
Qed.

(** X13: After the removal of the unwanted elements no element of the page,
    at any depth, is a script, style, nav, footer, header, aside, iframe
    or noscript element. *)
Theorem no_unwanted_element_left parsed :
  Forall (fun n => has_tag_in unwanted n = false)
    (doc_elements (decompose_all unwanted parsed)).
Proof. apply decompose_all_clean. Qed.

Lemma class_loop_found soup hints : forall article a,
  class_loop soup hints article = Some a ->
  article = Some a ∨ In a (doc_elements soup).
Proof.
  induction hints as [|hint hints IH]; intros article a; cbn [class_loop]; [by left|].
  destruct (usable (find_class hint soup)) eqn:Huse.
  - intros Hfound. right. by apply find_some in Hfound as [? _].
  - intros Hloop. apply IH in Hloop as [Hlast|Hin]; [|by right].
    unfold find_class, find in Hlast. right. by apply find_some in Hlast as [? _].
Qed.

Lemma largest_div_found soup most d :
  largest_div soup = (most, Some d) ->
  In d (find_all (has_tag "div") (doc_elements soup))
  ∧ p_count d = most
  ∧ 0 < most
  ∧ Forall (fun d' => p_count d' <= most) (find_all (has_tag "div") (doc_elements soup)).
Proof.
  unfold largest_div. rewrite largest_div_loop.
  set (divs := find_all (has_tag "div") (doc_elements soup)).
  rewrite Nat.max_0_l. intros [= Hmost Hfound].
  destruct (0 <? list_max (map p_count divs)) eqn:Hpos; [|done].
  apply Nat.ltb_lt in Hpos. apply find_some in Hfound as [Hin Heq].
  apply Nat.eqb_eq in Heq.
  repeat split; [done|lia|lia|].
  pose proof (proj1 (list_max_le (map p_count divs) most) ltac:(lia)) as Hall.
  apply List.Forall_map in Hall.
  by apply Forall_forall; intros; rewrite List.Forall_forall in Hall; apply Hall,
    list_elem_of_In.
Qed.

(** X14: The container picked by the loop over the divs holds at least one
    paragraph and at least as many as every other div of the page. *)
Theorem largest_div_is_largest soup most d :
  largest_div soup = (most, Some d) ->
  In d (find_all (has_tag "div") (doc_elements soup))
  ∧ p_count d = most
  ∧ 0 < most
  ∧ forall d', In d' (find_all (has_tag "div") (doc_elements soup)) ->
               p_count d' <= p_count d.
Proof.
  intros Hlargest.
  destruct (largest_div_found soup most d Hlargest) as (Hin & Hcount & Hpos & Hall).
  repeat split; [done|done|done|].
  intros d' Hd'. rewrite Hcount.
  rewrite Forall_forall in Hall. by apply Hall, list_elem_of_In.
Qed.

Lemma largest_div_is_largest_witness :
  p_count (Elem "div" [("id", "body")] (paragraphs 4)) = 4.
Proof.
  apply (largest_div_is_largest divs_page 4 (Elem "div" [("id", "body")] (paragraphs 4))).
  reflexivity.
Defined.

Lemma select_container_found soup a :
  select_container soup = Some a -> In a (doc_elements soup).
Proof.
  unfold select_container.
  set (a1 := find_testid soup).
  set (a2 := if usable a1 then a1 else find_tag "article" soup).
  set (a3 := if usable a2 then a2 else class_loop soup class_hints a2).
  set (a4 := if usable a3 then a3 else find_tag "main" soup).
  assert (H1 : forall x, a1 = Some x -> In x (doc_elements soup)).
  { intros x Hx. by apply find_some in Hx as [? _]. }
  assert (H2 : forall x, a2 = Some x -> In x (doc_elements soup)).
  { subst a2. intros x. destruct (usable a1); [apply H1|].
    intros Hx. by apply find_some in Hx as [? _]. }
  assert (H3 : forall x, a3 = Some x -> In x (doc_elements soup)).
  { subst a3. intros x. destruct (usable a2); [apply H2|].
    intros Hx. apply class_loop_found in Hx as [Hx|Hx]; [by apply H2|done]. }
  assert (H4 : forall x, a4 = Some x -> In x (doc_elements soup)).
  { subst a4. intros x. destruct (usable a3); [apply H3|].
    intros Hx. by apply find_some in Hx as [? _]. }
  destruct (usable a4); [apply H4|].
  destruct (largest_div soup) as [most candidate] eqn:Hdiv.
  destruct (3 <=? most); [|apply H4].
  intros ->. apply largest_div_found in Hdiv as (Hin & _).
  unfold find_all in Hin. by apply filter_In in Hin as [? _].
Qed.

(** X15: The element whose text is extracted is an element of the cleaned
    page, so it is never one of the removed kinds. *)
Theorem container_never_unwanted parsed a :
  chosen_container (decompose_all unwanted parsed) = Some a ->
  In a (doc_elements (decompose_all unwanted parsed))
  ∧ has_tag_in unwanted a = false.
Proof.
  unfold chosen_container. intros Hchosen.
  destruct (usable (select_container _)); [|done].
  apply select_container_found in Hchosen.
  split; [done|].
  pose proof (decompose_all_clean unwanted parsed) as Hclean.
  rewrite Forall_forall in Hclean. by apply Hclean, list_elem_of_In.
Qed.

Lemma container_never_unwanted_witness :
  has_tag_in unwanted (Elem "article" [] [Elem "p" [] [Text long_paragraph]]) = false.
Proof.
  apply (container_never_unwanted article_page
           (Elem "article" [] [Elem "p" [] [Text long_paragraph]])).
  vm_compute. reflexivity.
Defined.

(** X16: When the page is answered with status 200, the MSN handling does not
    answer and the cleaned-up article text has at least 100 characters,
    the result is that text cut at 5000 characters. *)
Theorem long_text_is_truncated w url response :
  requests_get w url = Some response ->
  status_code response = 200%Z ->
  (forall v, msn_special w url (text response) ≠ Return v) ->
  let body := article_text (decompose_all unwanted (html_parser w (text response))) in
  100 <= String.length body ->
  scrape_article w url = PStr (PyStr.slice_to 5000 body)
  ∧ String.length (PyStr.slice_to 5000 body) <= 5000.
Proof.
  intros Hget Hstatus Hmsn body Hlong.
  split; [|apply length_slice_to].
  unfold scrape_article. rewrite Hget, Hstatus. cbn [Z.eqb Pos.eqb negb].
  assert (Hgeneric : generic url (html_parser w (text response))
                     = PyStr.slice_to 5000 body).
  { unfold generic. fold body.
    rewrite (proj2 (Nat.ltb_ge (String.length body) 100) Hlong).
    unfold finish. destruct body as [|c body']; [cbn in Hlong; lia|done]. }
  rewrite Hgeneric.
  destruct (msn_special w url (text response)) as [v| |] eqn:Hflow; [|done|done].
  by destruct (Hmsn v).
Qed.

Lemma long_text_is_truncated_witness :
  scrape_article (serve 200 "" article_page) "http://a.test/1" = PStr long_paragraph.
Proof.
  apply (long_text_is_truncated (serve 200 "" article_page) "http://a.test/1"
           {| status_code := 200; text := EmptyString |});
    [reflexivity | reflexivity | discriminate | vm_compute; lia].
Defined.

Lemma append_empty_r (s : string) : s +:+ EmptyString = s.
Proof. induction s as [|c s IH]; simpl; [done|by f_equal]. Qed.

Lemma push_word_words w ws : space_free w = true -> Forall word ws ->
  Forall word (PyStr.push_word w ws).
Proof.
  intros Hw Hws. unfold PyStr.push_word.
  destruct w as [|c w]; [done|]. constructor; [|done]. by split.
Qed.

Lemma words_from_words s :
  space_free (PyStr.words_from s).1 = true ∧ Forall word (PyStr.words_from s).2.
Proof.
  induction s as [|c s [IHw IHws]]; cbn [PyStr.words_from]; [by split|].
  destruct (PyStr.words_from s) as [w ws]. cbn [fst snd] in *.
  destruct (PyStr.is_space c) eqn:Hc; cbn [fst snd].
  - split; [done|by apply push_word_words].
  - split; [|done]. cbn [space_free]. by rewrite Hc.
Qed.

Lemma split_ws_words s : Forall word (PyStr.split_ws s).
Proof.
  unfold PyStr.split_ws. destruct (words_from_words s) as [Hw Hws].
  destruct (PyStr.words_from s) as [w ws]. by apply push_word_words.
Qed.

Lemma words_from_word w s :
  space_free w = true ->
  PyStr.words_from (w +:+ s)
  = (w +:+ (PyStr.words_from s).1, (PyStr.words_from s).2).
Proof.
  intros Hw. induction w as [|c w IH].
  - change (EmptyString +:+ s) with s. by destruct (PyStr.words_from s).
  - cbn [space_free] in Hw. apply andb_true_iff in Hw as [Hc Hw].
    apply negb_true_iff in Hc.
    change (String c w +:+ s) with (String c (w +:+ s)).
    cbn [PyStr.words_from]. rewrite (IH Hw), Hc. done.
Qed.

Lemma split_ws_join ws : Forall word ws -> PyStr.split_ws (PyStr.join " " ws) = ws.
Proof.
  induction 1 as [|w ws [Hne Hfree] Hws IH]; [done|].
  destruct ws as [|w2 ws].
  - cbn [PyStr.join]. unfold PyStr.split_ws.
    rewrite <- (append_empty_r w) at 1. rewrite words_from_word by done.
    cbn [PyStr.words_from fst snd]. rewrite append_empty_r.
    unfold PyStr.push_word. by destruct w.
  - change (PyStr.join " " (w :: w2 :: ws))
      with (w +:+ String " " (PyStr.join " " (w2 :: ws))).
    unfold PyStr.split_ws. rewrite words_from_word by done.
    cbn [PyStr.words_from].
    unfold PyStr.split_ws in IH.
    destruct (PyStr.words_from (PyStr.join " " (w2 :: ws))) as [w' ws'].
    change (PyStr.is_space " ") with true. cbn [fst snd].
    rewrite append_empty_r, IH.
    unfold PyStr.push_word. by destruct w.
Qed.

(** X17: The whitespace clean-up leaves words separated by single spaces:
    the article text is a list of words (non-empty, without whitespace)
    joined by one space each, and cleaning it again changes nothing. *)
Theorem article_text_is_normalized soup :
  (exists words, Forall word words ∧ article_text soup = PyStr.join " " words)
  ∧ normalize (article_text soup) = article_text soup.
Proof.
  unfold article_text. set (raw := if PyStr.truthy _ then _ else _).
  split.
  - exists (PyStr.split_ws raw). split; [apply split_ws_words|done].
  - unfold normalize. by rewrite split_ws_join by apply split_ws_words.
Qed.

End ScrapeMore.

(** ** More on summarization *)

Section SummarizeMore.
Import PyStr Summarize Samples.

Lemma ensure_paragraphs_fixed summary :
  2 <= count break summary -> ensure_paragraphs summary = summary.
Proof.
  intros Hcount. unfold ensure_paragraphs.
  by rewrite (proj2 (Nat.ltb_ge (count break summary) 2) Hcount).
Qed.

Lemma ensure_paragraphs_cases summary :
  ensure_paragraphs summary = summary ∨ 2 <= count break (ensure_paragraphs summary).
Proof.
  unfold ensure_paragraphs.
  destruct (count break summary <? 2); [|by left].
  destruct (6 <=? length (split ". " summary)); [|by left].
  right. apply count_two_occurrences, break_length.
Qed.

(** X18: The paragraph check settles after one pass: applied to its own
    result it changes nothing. *)
Theorem ensure_paragraphs_idempotent summary :
  ensure_paragraphs (ensure_paragraphs summary) = ensure_paragraphs summary.
Proof.
  destruct (ensure_paragraphs_cases summary) as [Hsame|Hbreaks].
  - by rewrite !Hsame.
  - by apply ensure_paragraphs_fixed.
Qed.

(** X19: The summary built without the model holds two paragraph breaks as
    soon as one sentence could be collected; so does the result of
    [summarize_news] when every completion call raises. *)
Theorem extractive_has_two_breaks mistral articles :
  (forall prompt, mistral prompt = None) ->
  collected_sentences (valid_articles articles) ≠ [] ->
  2 <= count break (extractive (valid_articles articles))
  ∧ summarize_news mistral articles = extractive (valid_articles articles).
Proof.
  intros Hfail Hsentences. split.
  - unfold extractive.
    destruct (collected_sentences (valid_articles articles)); [done|].
    apply count_two_occurrences, break_length.
  - destruct articles as [|article articles]; [done|].
    rewrite summarize_news_cons. unfold complete. by rewrite Hfail.
Qed.

Lemma extractive_has_two_breaks_witness :
  2 <= count break (extractive (valid_articles sample_articles)).
Proof.
  apply (extractive_has_two_breaks failing_model sample_articles);
    [reflexivity | vm_compute; discriminate].
Defined.

Lemma filter_sublist {A : Type} (f : A -> bool) (l : list A) :
  List.filter f l `sublist_of` l.
Proof.
  induction l as [|x l IH]; cbn [List.filter]; [done|].
  destruct (f x); [by apply sublist_skip|by apply sublist_cons].
Qed.

Lemma filter_filter {A : Type} (f : A -> bool) (l : list A) :
  List.filter f (List.filter f l) = List.filter f l.
Proof.
  induction l as [|x l IH]; cbn [List.filter]; [done|].
  destruct (f x) eqn:Hx; [|done].
  cbn [List.filter]. by rewrite Hx, IH.
Qed.

(** X20: The batch is made of entries of the input in their order, and
    validating a batch again gives the same batch. *)
Theorem valid_articles_stable articles :
  valid_articles articles `sublist_of` articles
  ∧ valid_articles (valid_articles articles) = valid_articles articles.
Proof.
  unfold valid_articles.
  set (long := fun article => 50 <? String.length (strip article)).
  pose proof (filter_sublist long articles) as Hsub.
  pose proof (filter_filter long articles) as Hidem.
  destruct (List.filter long articles) as [|first kept] eqn:Hkept.
  - split; [done|]. by rewrite Hkept.
  - split; [done|]. by rewrite Hidem.
Qed.

End SummarizeMore.

(** ** The suggested sources and the command-line run *)

Section PipelineFacts.
Import Dom PyStr Pipeline Samples MoreSamples.

Lemma lstrip_head s :
  lstrip s = EmptyString ∨ exists c r, lstrip s = String c r ∧ is_space c = false.
Proof.
  induction s as [|c s IH]; cbn [lstrip]; [by left|].
  destruct (is_space c) eqn:Hc; [done|]. right. by exists c, s.
Qed.

Lemma rstrip_idempotent s : rstrip (rstrip s) = rstrip s.
Proof.
  induction s as [|c s IH]; cbn [rstrip]; [done|].
  destruct (is_space c && is_empty (rstrip s)) eqn:Hdrop; [done|].
  cbn [rstrip]. by rewrite IH, Hdrop.
Qed.

Lemma strip_idempotent s : strip (strip s) = strip s.
Proof.
  unfold strip.
  destruct (lstrip_head s) as [->|(c & r & -> & Hc)]; [done|].
  cbn [rstrip]. rewrite Hc. cbn [andb lstrip]. rewrite Hc.
  cbn [rstrip]. by rewrite Hc, rstrip_idempotent.
Qed.

(** X21: Every suggested source is a line of the completion without its
    surrounding whitespace, and none is empty. *)
Theorem sources_are_stripped_lines mistral query sources :
  get_news_sources mistral query = Some sources ->
  Forall (fun source => source ≠ EmptyString ∧ strip source = source) sources.
Proof.
  unfold get_news_sources.
  destruct (mistral (sources_prompt query)) as [sources_text|]; [|done].
  intros [= <-]. apply List.Forall_map, List.Forall_forall.
  intros line [_ Htruthy]%filter_In.
  split; [by destruct (strip line)|apply strip_idempotent].
Qed.

Lemma sources_are_stripped_lines_witness :
  Forall (fun source => source ≠ EmptyString ∧ strip source = source)
    ["1. Reuters"; "2. BBC News"].
Proof.
  apply (sources_are_stripped_lines listing_model "transit").
  vm_compute. reflexivity.
Defined.

Lemma as_texts_strings articles texts :
  as_texts articles = Some texts -> articles = map PStr texts.
Proof.
  revert texts. induction articles as [|[s|items] articles IH]; intros texts;
    cbn [as_texts]; [by intros [= <-]| |done].
  destruct (as_texts articles) as [rest|]; [|done].
  intros [= <-]. cbn [map]. by rewrite (IH rest).
Qed.

(** X22: What [main] can print.  Besides the two fixed messages it prints the
    summary of a batch of one to five texts, none of them empty, each the
    text scraped from one of the discovered URLs. *)
Theorem main_summarizes_scraped_texts mistral search pages topic line :
  main mistral search pages topic = Out line ->
  line = no_urls_message
  ∨ line = no_content_message
  ∨ exists texts,
      line = Summarize.summarize_news mistral texts
      ∧ 1 <= length texts <= 5
      ∧ Forall (fun t => t ≠ EmptyString
                         ∧ exists url, In url (Discover.get_news_urls search topic)
                                       ∧ Scrape.scrape_article pages url = PStr t) texts.
Proof.
  unfold main.
  destruct (get_news_sources mistral topic) as [sources|]; [|done].
  pose proof (get_news_urls_at_most_five search topic) as Hfive.
  destruct (Discover.get_news_urls search topic) as [|url urls] eqn:Hurls;
    [intros [= <-]; by left|].
  destruct (scrape_all pages (url :: urls)) as [|article articles] eqn:Hscraped;
    [intros [= <-]; right; by left|].
  destruct (as_texts (article :: articles)) as [texts|] eqn:Htexts; [|done].
  intros [= <-]. right. right. exists texts.
  apply as_texts_strings in Htexts.
  assert (Hlen : length texts = length (article :: articles))
    by (by rewrite Htexts, length_map).
  split; [done|]. split.
  - rewrite Hlen. split; [cbn; lia|].
    rewrite <- Hscraped. unfold scrape_all.
    etrans; [apply List.filter_length_le|]. by rewrite length_map.
  - apply List.Forall_forall. intros t Ht.
    assert (Hin : In (PStr t) (scrape_all pages (url :: urls))).
    { rewrite Hscraped, Htexts. by apply in_map. }
    unfold scrape_all in Hin. apply filter_In in Hin as [Hin Htruthy].
    apply in_map_iff in Hin as (u & Hu & Hin).
    split; [by destruct t|]. by exists u.
Qed.

Lemma main_summarizes_scraped_texts_witness :
  "Markets rose on Tuesday." = no_urls_message
  ∨ "Markets rose on Tuesday." = no_content_message
  ∨ exists texts,
      "Markets rose on Tuesday." = Summarize.summarize_news listing_model texts
      ∧ 1 <= length texts <= 5
      ∧ Forall (fun t => t ≠ EmptyString
                         ∧ exists url, In url (Discover.get_news_urls many_links_web "transit")
                                       ∧ Scrape.scrape_article (serve 200 "" article_page) url
                                         = PStr t) texts.
Proof.
  apply (main_summarizes_scraped_texts listing_model many_links_web
           (serve 200 "" article_page) "transit").
  vm_compute. reflexivity.
Defined.

(** X23: When every discovered page is answered with a status other than
    200, nothing is summarized: [main] reports that no content could be
    retrieved, and the completion is not asked for a summary. *)
Theorem no_page_no_summary mistral search pages topic sources :
  get_news_sources mistral topic = Some sources ->
  Discover.get_news_urls search topic ≠ [] ->
  (forall url, In url (Discover.get_news_urls search topic) ->
     exists response, Scrape.requests_get pages url = Some response
                      ∧ status_code response ≠ 200%Z) ->
  main mistral search pages topic = Out no_content_message.
Proof.
  intros Hsources Hurls Hpages. unfold main. rewrite Hsources.
  assert (Hnone : forall urls,
            (forall url, In url urls ->
               exists response, Scrape.requests_get pages url = Some response
                                ∧ status_code response ≠ 200%Z) ->
            scrape_all pages urls = []).
  { induction urls as [|url urls IH]; intros Hall; [done|].
    unfold scrape_all. cbn [map List.filter].
    destruct (Hall url) as (response & Hget & Hstatus); [by left|].
    unfold Scrape.scrape_article at 1. rewrite Hget.
    rewrite (proj2 (Z.eqb_neq (status_code response) 200) Hstatus).
    cbn [negb truthy_value truthy is_empty]. apply IH.
    intros u Hu. apply Hall. by right. }
  rewrite (Hnone _ Hpages).
  by destruct (Discover.get_news_urls search topic).
Qed.

Lemma no_page_no_summary_witness :
  main listing_model many_links_web not_found_web "transit" = Out no_content_message.
Proof.
  apply (no_page_no_summary listing_model many_links_web not_found_web "transit"
           ["1. Reuters"; "2. BBC News"]).
  - vm_compute. reflexivity.
  - vm_compute. discriminate.
  - intros url _. exists {| status_code := 404; text := "Not Found" |}.
    split; [reflexivity|discriminate].
Defined.

End PipelineFacts.

(** ** The commands of the agent *)

Section CommandFacts.
Import PyStr Agent Commands Shape Samples MoreSamples.

(** X24: The listing shows the first five items only: further items never
    change the message. *)
Theorem listing_shows_first_five e news_items category :
  format_news_response e news_items category
  = format_news_response e (firstn 5 news_items) category.
Proof.
  destruct news_items as [|item news_items]; [done|].
  unfold format_news_response. cbn [firstn].
  change (item :: firstn 4 news_items) with (firstn 5 (item :: news_items)).
  by rewrite take_take.
Qed.

Lemma fresh_forced self now category : fresh self now category true = false.
Proof.
  unfold fresh. destruct (last_fetch self !! category); [|done].
  by rewrite andb_false_r.
Qed.

Lemma fetch_news_reachable parse self now category force_refresh :
  reachable self -> reachable (after (fetch_news parse self now category force_refresh)).
Proof.
  intros Hreach.
  change (reachable (run_call self {| call_parse := parse; call_now := now;
                                      call_category := category;
                                      call_force := force_refresh |})).
  by constructor.
Qed.

Lemma refresh_all_reachable e cats : forall k self io,
  reachable self -> reachable (refresh_all e cats k self io).1.
Proof.
  induction cats as [|category cats IH]; intros k self io Hreach;
    cbn [refresh_all]; [done|].
  by apply IH, fetch_news_reachable.
Qed.

Lemma process_command_reachable e self message_content :
  reachable self -> reachable (agent_after (process_command e self message_content)).
Proof.
  intros Hreach. unfold process_command.
  destruct (startswith "news " (lower message_content)); [|done].
  destruct (split_ws _) as [|command more]; [by apply fetch_news_reachable|].
  destruct (existsb _ categories); [by apply fetch_news_reachable|].
  destruct (String.eqb command "summary" && _); [done|].
  destruct (String.eqb command "refresh").
  - pose proof (refresh_all_reachable e categories 0 self [] Hreach) as Hall.
    by destruct (refresh_all e categories 0 self []).
  - by apply fetch_news_reachable.
Qed.

(** X25: A message changes the agent only through calls of [fetch_news]: the
    agent after [process_command] or [run] is a reachable state, so the
    properties of the reachable states hold after any message; and a
    message that does not start with "news " (in any case) fetches
    nothing and leaves the agent as it is. *)
Theorem messages_keep_agent_reachable e self message_content :
  reachable self ->
  reachable (agent_after (process_command e self message_content))
  ∧ reachable (agent_after (run e self message_content))
  ∧ (startswith "news " (lower message_content) = false ->
     agent_after (run e self message_content) = self
     ∧ feeds_fetched (run e self message_content) = []).
Proof.
  intros Hreach.
  pose proof (process_command_reachable e self message_content Hreach) as Hcommand.
  split; [done|]. split.
  - unfold run. destruct (said (process_command e self message_content)) as [[|c s]| |];
      done.
  - intros Hother. unfold run, process_command. by rewrite Hother.
Qed.

Lemma messages_keep_agent_reachable_witness :
  reachable (agent_after (run (echo_env 0) init "news technology")).
Proof.
  apply (messages_keep_agent_reachable (echo_env 0) init "news technology").
  constructor.
Defined.

(** X26: [news refresh] fetches the feeds of the five categories in the order
    of the registry, whatever the cache holds, and afterwards every
    category has the time of its own fetch and a cached list. *)
Theorem refresh_fetches_every_category e self message_content more :
  startswith "news " (lower message_content) = true ->
  split_ws (slice_from 5 (lower message_content)) = "refresh" :: more ->
  let r := process_command e self message_content in
  said r = Reply "News sources refreshed!"
  ∧ feeds_fetched r = flat_map snd news_sources
  ∧ forall k category,
      categories !! k = Some category ->
      last_fetch (agent_after r) !! category = Some (now e k)
      ∧ is_Some (news_cache (agent_after r) !! category).
Proof.
  intros Hnews Hparts r. subst r. unfold process_command.
  rewrite Hnews, Hparts.
  change (existsb (String.eqb "refresh") categories) with false.
  change (String.eqb "refresh" "summary") with false.
  change (String.eqb "refresh" "refresh") with true.
  cbn [andb]. unfold categories, news_sources.
  cbn [map fst refresh_all].
  rewrite !fetch_news_miss by apply fresh_forced.
  cbn [said agent_after feeds_fetched after fetched].
  split; [done|]. split.
  - rewrite !fetch_sources_trace. reflexivity.
  - intros k category Hk.
    destruct k as [|[|[|[|[|k]]]]]; cbn in Hk; try done;
      injection Hk as <-; cbn [last_fetch news_cache];
      (split; [by simplify_map_eq|by simplify_map_eq]).
Qed.

Lemma refresh_fetches_every_category_witness :
  feeds_fetched (process_command (echo_env 0) init "News Refresh")
  = flat_map snd news_sources.
Proof.
  apply (refresh_fetches_every_category (echo_env 0) init "News Refresh" []);
    reflexivity.
Defined.

Lemma lower_append a b : lower (a +:+ b) = lower a +:+ lower b.
Proof. induction a as [|c a IH]; simpl; [done|by f_equal]. Qed.

Lemma is_space_lower_char c : is_space (lower_char c) = is_space c.
Proof. by destruct c as [[] [] [] [] [] [] [] []]. Qed.

Lemma lower_word url : word url -> word (lower url).
Proof.
  intros [Hne Hfree]. split; [by destruct url|].
  clear Hne. induction url as [|c url IH]; [done|].
  cbn [space_free lower] in *. rewrite is_space_lower_char.
  apply andb_true_iff in Hfree as [-> Hfree]. by apply IH.
Qed.

(** X27: The message is put in lower case before it is split: the address
    that [news summary <url>] hands to [summarize_article] is the typed
    address in lower case.  The command fetches no feed and leaves the
    agent as it is. *)
Theorem summary_url_is_lowercased e self url :
  word url ->
  let r := process_command e self ("news summary " +:+ url) in
  said r = summarize_article e (lower url)
  ∧ agent_after r = self
  ∧ feeds_fetched r = [].
Proof.
  intros Hword r. subst r. unfold process_command.
  rewrite lower_append.
  change (lower "news summary ") with ("news " +:+ "summary ").
  rewrite append_assoc. unfold startswith. rewrite prefix_append.
  change (slice_from 5 ("news " +:+ "summary " +:+ lower url))
    with (join " " ["summary"; lower url]).
  rewrite split_ws_join.
  2: { constructor; [by split|]. constructor; [by apply lower_word|done]. }
  change (existsb (String.eqb "summary") categories) with false.
  by cbn.
Qed.

Lemma summary_url_is_lowercased_witness :
  said (process_command (echo_env 0) init "news summary HTTP://A.test/Path")
  = summarize_article (echo_env 0) "http://a.test/path".
Proof.
  apply (summary_url_is_lowercased (echo_env 0) init "HTTP://A.test/Path").
  split; [discriminate|reflexivity].
Defined.

(** X28: Asking for the same category again within the hour gives the same
    listing and fetches no feed. *)
Theorem repeated_listing_is_cached e1 e2 self message_content command more :
  startswith "news " (lower message_content) = true ->
  split_ws (slice_from 5 (lower message_content)) = command :: more ->
  existsb (String.eqb command) categories = true ->
  fresh self (now e1 0) command false = false ->
  (now e2 0 - now e1 0 < one_hour)%Z ->
  banner e2 = banner e1 ->
  upper e2 = upper e1 ->
  let first := process_command e1 self message_content in
  process_command e2 (agent_after first) message_content
  = {| said := said first; agent_after := agent_after first; feeds_fetched := [] |}.
Proof.
  intros Hnews Hparts Hcategory Hmiss Hsoon Hbanner Hupper first.
  subst first. unfold process_command.
  rewrite Hnews, Hparts, Hcategory. unfold listing.
  rewrite (fetch_news_miss (feeds e1)) by done.
  cbn [said agent_after feeds_fetched returned after fetched].
  rewrite fetch_news_hit.
  - cbn [returned after fetched news_cache]. rewrite lookup_insert_eq. cbn [default].
    unfold format_news_response. by rewrite Hbanner, Hupper.
  - unfold fresh. cbn [last_fetch]. rewrite lookup_insert_eq.
    apply andb_true_intro; split; [by apply Z.ltb_lt|done].
Qed.

Lemma repeated_listing_is_cached_witness :
  process_command (echo_env 10)
    (agent_after (process_command (echo_env 0) init "news science")) "news science"
  = {| said := said (process_command (echo_env 0) init "news science");
       agent_after := agent_after (process_command (echo_env 0) init "news science");
       feeds_fetched := [] |}.
Proof.
  apply (repeated_listing_is_cached (echo_env 0) (echo_env 10) init "news science"
           "science" []); reflexivity.
Defined.

End CommandFacts.

(** ** The minimal pipeline of [short.py] *)

Section ShortFacts.
Import Dom Discover Short.

Lemma bing_links_checked hs :
  Forall (fun url => is_http url = true ∧ PyStr.contains "bing" url = false)
    (bing_links hs).
Proof.
  unfold bing_links. apply List.Forall_forall.
  intros url [_ [Hhttp Hbing]%andb_true_iff]%filter_In.
  split; [done|by apply negb_true_iff].
Qed.

(** X29: Whatever Bing answers, also when the request raises, the minimal
    [get_news_urls] returns at most five URLs, all different, each
    starting with [http://] or [https://] and none containing "bing". *)
Theorem short_urls_are_distinct bing query :
  NoDup (Short.get_news_urls bing query)
  ∧ length (Short.get_news_urls bing query) <= 5
  ∧ Forall (fun url => is_http url = true ∧ PyStr.contains "bing" url = false)
      (Short.get_news_urls bing query).
Proof.
  unfold Short.get_news_urls.
  set (article_links := match bing query with Raises => [] | Got _ soup => _ end).
  destruct (unique_loop_spec article_links ∅ []) as [Hnodup Hlen];
    [apply NoDup_nil_2|set_solver|cbn; lia|].
  split; [done|]. split; [done|].
  apply first_unique_forall. subst article_links.
  destruct (bing query); [done|apply bing_links_checked].
Qed.

(** X30: The minimal [scrape_article] returns at most 5000 characters for
    every page and every outcome of the fetch. *)
Theorem short_article_is_bounded fetch url :
  String.length (Short.scrape_article fetch url) <= 5000.
Proof.
  unfold Short.scrape_article.
  destruct (fetch url) as [|status parsed]; [cbn; lia|].
  destruct (PyStr.truthy _); [apply length_slice_to|cbn; lia].
Qed.

End ShortFacts.
